(** * Synthetic data generator of the deployment-risk PoC: a verified model

    Shallow embedding of [src/synthetic_data.py].

    - A [pd.Timestamp] is the integer number of nanoseconds since the Unix
      epoch (1970-01-01T00:00, a Thursday), as pandas stores it.
    - A Python float stands for the rational number it denotes: decimal
      literals are read exactly and sums are exact.  Where a result of the
      code depends on the rounding of binary64 arithmetic (the incident
      probability against the severity thresholds, the hourly sums against
      the load thresholds), [generate_incidents] is modelled a second time on
      IEEE binary64 numbers, and the statements are made on that model.
    - The process-wide numpy generator is an explicit state threaded through
      every draw ([RandomSource]); the laws of the interface are the ranges
      numpy documents for [rand], [randint] and [choice].
    - A [pd.DataFrame] is its list of column labels together with its rows,
      each row carrying its index label.  [sort_values] on a label that is
      not a column raises [KeyError], as pandas does. *)

From Stdlib Require Import ZArith QArith Qminmax Qround Lqa Lia.
From Stdlib Require Import List String Bool Sorted Permutation.
From Stdlib Require Import Floats.

#[local] Set Warnings "-inexact-float".
Import ListNotations.

Local Open Scope Z_scope.

(** ** Timestamps *)

Abbreviation Timestamp := Z (only parsing).

Definition NS_PER_MINUTE : Z := 60 * 1000000000.
Definition NS_PER_HOUR : Z := 60 * NS_PER_MINUTE.
Definition NS_PER_DAY : Z := 24 * NS_PER_HOUR.

(** [pd.Timedelta(minutes=m)] and [pd.Timedelta(hours=h)]. *)
Definition Timedelta_minutes (m : Z) : Z := m * NS_PER_MINUTE.
Definition Timedelta_hours (h : Z) : Z := h * NS_PER_HOUR.

(** [ts.dayofweek]: Monday is 0, Sunday is 6. *)
Definition dayofweek (ts : Timestamp) : Z := (ts / NS_PER_DAY + 3) mod 7.

(** [ts.hour]. *)
Definition hour (ts : Timestamp) : Z := (ts / NS_PER_HOUR) mod 24.

(** [ts.floor("h")]. *)
Definition floor_h (ts : Timestamp) : Timestamp := NS_PER_HOUR * (ts / NS_PER_HOUR).

(** [pd.date_range(start, end, freq="h")]: [start], [start + 1h], ... up to
    and including the last one that is not after [end]. *)
Definition date_range_h (start_date end_date : Timestamp) : list Timestamp :=
  map (fun k => start_date + Timedelta_hours (Z.of_nat k))
      (seq 0 (Z.to_nat ((end_date - start_date) / NS_PER_HOUR + 1))).

Definition _hours_between (start_date end_date : Timestamp) : list Timestamp :=
  date_range_h start_date end_date.

(** ** Floats as rationals *)

Local Open Scope Q_scope.

Definition Qltb (x y : Q) : bool := negb (Qle_bool y x).

(** Python's builtin [min(a, b)]: [b] when [b < a], else [a]. *)
Definition py_min (a b : Q) : Q := if Qltb b a then b else a.

(** Python's builtin [max(a, b)]: [b] when [b > a], else [a]. *)
Definition py_max (a b : Q) : Q := if Qltb a b then b else a.

(** [np.clip(x, lo, hi)] is [minimum(hi, maximum(x, lo))]. *)
Definition np_clip (x lo hi : Q) : Q := Qmin hi (Qmax x lo).

(** [series.max()] of a non-empty float series; pandas gives NaN for an
    empty one, which no call below produces. *)
Definition series_max (xs : list Q) : Q :=
  match xs with
  | [] => 0
  | x :: xs' => fold_left Qmax xs' x
  end.

(** ** Rows of the three tables *)

Record MatchEvent := mkMatchEvent {
  m_timestamp : Timestamp;
  tournament : string;
  traffic_multiplier : Q
}.

Record DeployEvent := mkDeployEvent {
  d_timestamp : Timestamp;
  is_critical_fix : bool;
  deploy_size : string
}.

Record Incident := mkIncident {
  i_timestamp : Timestamp;
  incident_type : string;
  severity : string
}.

Class Timestamped (R : Type) := timestamp : R -> Timestamp.
#[export] Instance MatchEvent_ts : Timestamped MatchEvent := m_timestamp.
#[export] Instance DeployEvent_ts : Timestamped DeployEvent := d_timestamp.
#[export] Instance Incident_ts : Timestamped Incident := i_timestamp.

(** ** Data frames *)

Inductive result (A : Type) : Type :=
| Ok (a : A)
| KeyError (key : string).
Arguments Ok {A} a.
Arguments KeyError {A} key.

Record DataFrame (R : Type) := mkDataFrame {
  columns : list string;
  records : list (nat * R)
}.
Arguments mkDataFrame {R} columns records.
Arguments columns {R} d.
Arguments records {R} d.

Definition index {R} (df : DataFrame R) : list nat := map fst (records df).
Definition rows_of {R} (df : DataFrame R) : list R := map snd (records df).

(** [pd.DataFrame(rows)] for a list of dicts that all have the keys [keys]:
    the columns are the keys met in the list, so an empty list gives a frame
    without any column; the index is [0 .. n-1]. *)
Definition DataFrame_of_rows {R} (keys : list string) (rows : list R) : DataFrame R :=
  mkDataFrame (match rows with [] => [] | _ :: _ => keys end)
              (combine (seq 0 (List.length rows)) rows).

Section SortValues.
Context {R : Type} `{Timestamped R}.

Fixpoint insert_by_timestamp (x : nat * R) (l : list (nat * R)) : list (nat * R) :=
  match l with
  | [] => [x]
  | y :: l' =>
      if (timestamp (snd x) <? timestamp (snd y))%Z
      then x :: l
      else y :: insert_by_timestamp x l'
  end.

(** Rows in increasing timestamp order; rows of equal timestamp keep their
    relative order (which numpy's default sort does not promise). *)
Definition sort_records (l : list (nat * R)) : list (nat * R) :=
  fold_right insert_by_timestamp [] (rev l) .

(** [df.sort_values("timestamp")]. *)
Definition sort_values_timestamp (df : DataFrame R) : result (DataFrame R) :=
  if existsb (String.eqb "timestamp") (columns df)
  then Ok (mkDataFrame (columns df) (sort_records (records df)))
  else KeyError "timestamp".

(** [df.reset_index(drop=True)]. *)
Definition reset_index_drop (df : DataFrame R) : DataFrame R :=
  mkDataFrame (columns df)
              (combine (seq 0 (List.length (records df))) (map snd (records df))).

(** [pd.DataFrame(rows).sort_values("timestamp").reset_index(drop=True)],
    the last line of each generator. *)
Definition sorted_frame (keys : list string) (rows : list R) : result (DataFrame R) :=
  match sort_values_timestamp (DataFrame_of_rows keys rows) with
  | Ok df => Ok (reset_index_drop df)
  | KeyError k => KeyError k
  end.
End SortValues.

(** ** The random source *)

(** The draws the module makes on [np.random], with the generator state made
    explicit.  The three laws are the ranges numpy documents: [rand] is in
    [0, 1), [randint(lo, hi)] is in [lo, hi), and [choice] returns one of the
    entries it was given. *)
Class RandomSource (G : Type) := {
  rand : G -> Q * G;
  normal : Q -> Q -> G -> Q * G;
  poisson : Q -> G -> nat * G;
  randint : Z -> Z -> G -> Z * G;
  choice : list string -> list Q -> G -> string * G;
  rand_range : forall g, 0 <= fst (rand g) /\ fst (rand g) < 1;
  randint_range : forall lo hi g,
    (lo < hi)%Z -> (lo <= fst (randint lo hi g) < hi)%Z;
  choice_In : forall l p g, l <> [] -> In (fst (choice l p g)) l
}.

(** Computations that draw from the source. *)
Definition Gen (G A : Type) : Type := G -> A * G.

Definition ret {G A} (a : A) : Gen G A := fun g => (a, g).

Definition bind {G A B} (m : Gen G A) (k : A -> Gen G B) : Gen G B :=
  fun g => let (a, g') := m g in k a g'.

Declare Scope gen_scope.
Delimit Scope gen_scope with gen.
Notation "x <- m ;; k" := (bind m (fun x => k))
  (at level 61, m at next level, right associativity) : gen_scope.

(** [for a in l: body(a)], where every pass hands back the rows it appended. *)
Fixpoint for_each {G A R} (l : list A) (body : A -> Gen G (list R)) : Gen G (list R) :=
  match l with
  | [] => ret []
  | a :: l' =>
      bind (body a) (fun rows =>
      bind (for_each l' body) (fun rest =>
      ret (rows ++ rest)))
  end.

(** [for _ in range(n): body()]. *)
Fixpoint for_range {G R} (n : nat) (body : Gen G (list R)) : Gen G (list R) :=
  match n with
  | O => ret []
  | S n' =>
      bind body (fun rows =>
      bind (for_range n' body) (fun rest =>
      ret (rows ++ rest)))
  end.

(** ** generate_match_events *)

Record Window := mkWindow {
  w_name : string;
  w_days : list Z;
  w_hours : Z * Z;          (* range(lo, hi) *)
  w_base : Q;
  w_prob : Q
}.

Definition windows : list Window :=
  [ mkWindow "Brasileirao" [2; 3]%Z (19, 22)%Z 1.7 0.80;
    mkWindow "Champions League" [2]%Z (15, 22)%Z 2.1 0.65;
    mkWindow "Europa League" [3]%Z (15, 22)%Z 1.8 0.60;
    mkWindow "Libertadores" [2; 3]%Z (19, 22)%Z 1.9 0.75;
    mkWindow "Weekend matches" [5; 6]%Z (16, 21)%Z 2.0 0.85 ].

(** [x in {..}] for a set of integers. *)
Definition in_set (x : Z) (s : list Z) : bool := existsb (Z.eqb x) s.

(** [x in range(lo, hi)]. *)
Definition in_range (x : Z) (r : Z * Z) : bool :=
  ((fst r <=? x) && (x <? snd r))%Z.

Definition match_columns : list string :=
  ["timestamp"; "tournament"; "traffic_multiplier"]%string.
Definition deploy_columns : list string :=
  ["timestamp"; "is_critical_fix"; "deploy_size"]%string.
Definition incident_columns : list string :=
  ["timestamp"; "incident_type"; "severity"]%string.

(** ** generate_deploy_events: the two tables *)

Definition base_rate (dow hour : Z) : Q :=
  if (dow <=? 3)%Z then
    if ((9 <=? hour) && (hour <? 12))%Z then 0.9
    else if ((12 <=? hour) && (hour <? 16))%Z then 1.1
    else if ((16 <=? hour) && (hour <? 18))%Z then 1.7
    else if ((18 <=? hour) && (hour <? 22))%Z then 0.7
    else 0.08
  else if (dow =? 4)%Z then
    if ((10 <=? hour) && (hour <? 15))%Z then 0.55
    else if ((15 <=? hour) && (hour <? 17))%Z then 1.0
    else if ((17 <=? hour) && (hour <? 20))%Z then 0.45
    else 0.06
  else 0.03.

(** Lines 122-126: the probability of the [is_critical_fix] draw. *)
Definition base_crit (dow hour : Z) : Q :=
  let base_crit := 0.07 in
  let base_crit := if (5 <=? dow)%Z then 0.22 else base_crit in
  let base_crit :=
    if ((dow =? 4) && ((15 <=? hour) && (hour <=? 18)))%Z
    then base_crit + 0.10 else base_crit in
  base_crit.

(** ** generate_incidents: the deterministic parts *)

(** One step of [groupby("hour")["traffic_multiplier"].sum().sort_index()]:
    the series is kept as an association list in increasing hour order. *)
Fixpoint group_add (h : Timestamp) (x : Q) (s : list (Timestamp * Q))
  : list (Timestamp * Q) :=
  match s with
  | [] => [(h, x)]
  | (k, v) :: s' =>
      if (h <? k)%Z then (h, x) :: s
      else if (h =? k)%Z then (k, v + x) :: s'
      else (k, v) :: group_add h x s'
  end.

(** Lines 154-162. An empty table gives the empty series in both branches. *)
Definition hourly_match_of (matches_df : list MatchEvent) : list (Timestamp * Q) :=
  match matches_df with
  | [] => []
  | _ :: _ =>
      fold_left (fun s m => group_add (floor_h (m_timestamp m)) (traffic_multiplier m) s)
                matches_df []
  end.

(** [series.reindex(labels, fill_value=fill)], one label. *)
Fixpoint series_get (s : list (Timestamp * Q)) (h : Timestamp) (fill : Q) : Q :=
  match s with
  | [] => fill
  | (k, v) :: s' => if (h =? k)%Z then v else series_get s' h fill
  end.

Definition reindex (s : list (Timestamp * Q)) (labels : list Timestamp) (fill : Q)
  : list Q :=
  map (fun h => series_get s h fill) labels.

(** Lines 170-177. *)
Definition near_hours (hour_ts : Timestamp) : list Timestamp :=
  date_range_h (hour_ts - Timedelta_hours 2)%Z (hour_ts + Timedelta_hours 2)%Z.

Definition near_match_intensity (hourly_match : list (Timestamp * Q)) (ts : Timestamp) : Q :=
  series_max (reindex hourly_match (near_hours (floor_h ts)) 0).

(** Lines 179-193: the probability before it is clipped. *)
Definition raw_probability (dow hour : Z) (dep : DeployEvent) (near : Q) : Q :=
  let p := 0.010 in
  let p := if ((16 <=? hour) && (hour <=? 18))%Z then p + 0.040 else p in
  let p := if in_set dow [2; 3]%Z then p + 0.010 else p in
  let p := if ((dow =? 4) && ((15 <=? hour) && (hour <=? 18)))%Z then p + 0.025 else p in
  let p := if is_critical_fix dep then p + 0.020 else p in
  let p := if String.eqb (deploy_size dep) "large" then p + 0.030
           else if String.eqb (deploy_size dep) "medium" then p + 0.015
           else p in
  p + py_min 0.08 (near * 0.02).

(** Line 194. *)
Definition incident_probability (dow hour : Z) (dep : DeployEvent) (near : Q) : Q :=
  np_clip (raw_probability dow hour dep near) 0.0 0.95.

(** Lines 197-202. *)
Definition deploy_severity (p : Q) : string :=
  if Qle_bool 0.12 p then "high"
  else if Qle_bool 0.07 p then "medium"
  else "low".

(** Lines 220-225. *)
Definition load_severity (intensity : Q) : string :=
  if Qle_bool 4.5 intensity then "high"
  else if Qle_bool 3.0 intensity then "medium"
  else "low".

(** The probability the loop of line 164 uses for one deploy row. *)
Definition deploy_p (hourly_match : list (Timestamp * Q)) (dep : DeployEvent) : Q :=
  let ts := d_timestamp dep in
  incident_probability (dayofweek ts) (hour ts) dep (near_match_intensity hourly_match ts).

(** ** The three generators *)

(** An input table of [generate_incidents] is read through its rows only and
    has the documented columns, so it is its list of rows, and [df.empty]
    holds exactly when that list is empty. *)

Section Generators.
Context {G : Type} `{RandomSource G}.
Local Open Scope gen_scope.

(** Lines 69-80: one window at one hour. *)
Definition match_window (ts : Timestamp) (cfg : Window) : Gen G (list MatchEvent) :=
  let dow := dayofweek ts in
  let hour := hour ts in
  if in_set dow (w_days cfg) && in_range hour (w_hours cfg) then
    u <- rand ;;
    if Qltb u (w_prob cfg) then
      x <- normal (w_base cfg) 0.20 ;;
      let multiplier := np_clip x 1.0 3.2 in
      ret [mkMatchEvent ts (w_name cfg) multiplier]
    else ret []
  else ret [].

(** Lines 65-80. *)
Definition match_rows (hours : list Timestamp) : Gen G (list MatchEvent) :=
  for_each hours (fun ts => for_each windows (match_window ts)).

Definition generate_match_events (start_date end_date : Timestamp)
  : Gen G (result (DataFrame MatchEvent)) :=
  rows <- match_rows (_hours_between start_date end_date) ;;
  ret (sorted_frame match_columns rows).

(** Lines 119-143: one deploy of the hour [hour_ts]. *)
Definition one_deploy (hour_ts : Timestamp) : Gen G (list DeployEvent) :=
  let dow := dayofweek hour_ts in
  let hour := hour hour_ts in
  minute <- randint 0 60 ;;
  let ts := (hour_ts + Timedelta_minutes minute)%Z in
  u <- rand ;;
  let is_critical_fix := Qltb u (base_crit dow hour) in
  deploy_size <-
    (if is_critical_fix
     then choice ["small"; "medium"]%string [0.70; 0.30]
     else choice ["small"; "medium"; "large"]%string [0.45; 0.40; 0.15]) ;;
  ret [mkDeployEvent ts is_critical_fix deploy_size].

(** Lines 114-143. *)
Definition deploy_hour (hour_ts : Timestamp) : Gen G (list DeployEvent) :=
  n_deploys <- poisson (base_rate (dayofweek hour_ts) (hour hour_ts)) ;;
  for_range n_deploys (one_deploy hour_ts).

Definition deploy_rows (hours : list Timestamp) : Gen G (list DeployEvent) :=
  for_each hours deploy_hour.

Definition generate_deploy_events (start_date end_date : Timestamp)
  : Gen G (result (DataFrame DeployEvent)) :=
  rows <- deploy_rows (_hours_between start_date end_date) ;;
  ret (sorted_frame deploy_columns rows).

(** Lines 165-210: one deploy row. *)
Definition deploy_incident (hourly_match : list (Timestamp * Q)) (dep : DeployEvent)
  : Gen G (list Incident) :=
  let ts := d_timestamp dep in
  let p := deploy_p hourly_match dep in
  u <- rand ;;
  if Qltb u p
  then ret [mkIncident ts "deploy_incident" (deploy_severity p)]
  else ret [].

(** Lines 217-233: one load incident of the hour [hour_ts]. *)
Definition one_load_incident (hour_ts : Timestamp) (intensity : Q)
  : Gen G (list Incident) :=
  minute <- randint 0 60 ;;
  let ts := (hour_ts + Timedelta_minutes minute)%Z in
  ret [mkIncident ts "load_incident" (load_severity intensity)].

(** Lines 212-233: one entry of the hourly series. *)
Definition load_incidents (entry : Timestamp * Q) : Gen G (list Incident) :=
  let lam := py_max 0.0 (0.03 * snd entry) in
  n_load <- poisson lam ;;
  for_range n_load (one_load_incident (fst entry) (snd entry)).

(** The rows in the order they are appended: the deploy loop, then the
    loop over the hourly series. *)
Definition incident_rows (deploys_df : list DeployEvent) (matches_df : list MatchEvent)
  : Gen G (list Incident) :=
  let hourly_match := hourly_match_of matches_df in
  rows1 <- for_each deploys_df (deploy_incident hourly_match) ;;
  rows2 <- for_each hourly_match load_incidents ;;
  ret (rows1 ++ rows2).

Definition generate_incidents (deploys_df : list DeployEvent) (matches_df : list MatchEvent)
  : Gen G (result (DataFrame Incident)) :=
  rows <- incident_rows deploys_df matches_df ;;
  ret (sorted_frame incident_columns rows).
End Generators.

(** ** A source that replays recorded draws *)

(** The state is the list of draws still to come; an exhausted list keeps
    giving 0.  Each primitive maps the next number into its own range. *)
Definition Replay := list Q.

Definition next_draw (g : Replay) : Q * Replay :=
  match g with
  | [] => (0, [])
  | x :: g' => (x, g')
  end.

Definition replay_rand (g : Replay) : Q * Replay :=
  let (x, g') := next_draw g in
  (if Qle_bool 0 x && Qltb x 1 then x else 0, g').

Definition replay_normal (mu sigma : Q) (g : Replay) : Q * Replay :=
  let (x, g') := next_draw g in (mu + sigma * x, g').

Definition replay_poisson (lam : Q) (g : Replay) : nat * Replay :=
  let (x, g') := next_draw g in (Z.to_nat (Qfloor x), g').

Definition replay_randint (lo hi : Z) (g : Replay) : Z * Replay :=
  let (x, g') := next_draw g in ((lo + Qfloor x mod (hi - lo))%Z, g').

Definition replay_choice (l : list string) (p : list Q) (g : Replay) : string * Replay :=
  let (x, g') := next_draw g in
  (nth (Z.to_nat (Qfloor x) mod List.length l)%nat l EmptyString, g').

(** ** The tables of the specification, as the text gives them *)

(** Section 4.2: the Poisson rate by day of week and hour of day. *)
Definition spec_rate (dow hour : Z) : Q :=
  if ((0 <=? dow) && (dow <=? 3))%Z then        (* Monday to Thursday *)
    if ((9 <=? hour) && (hour <=? 11))%Z then 0.9
    else if ((12 <=? hour) && (hour <=? 15))%Z then 1.1
    else if ((16 <=? hour) && (hour <=? 17))%Z then 1.7
    else if ((18 <=? hour) && (hour <=? 21))%Z then 0.7
    else 0.08
  else if (dow =? 4)%Z then                     (* Friday *)
    if ((10 <=? hour) && (hour <=? 14))%Z then 0.55
    else if ((15 <=? hour) && (hour <=? 16))%Z then 1.0
    else if ((17 <=? hour) && (hour <=? 19))%Z then 0.45
    else 0.06
  else 0.03.                                    (* Saturday, Sunday *)


(** Section 4.3, step 2: the probability as a sum of adjustments, clamped.
    [bonus_days] are the days of the week that earn the +0.010. *)
Definition clamp (lo hi x : Q) : Q := Qmax lo (Qmin x hi).

Definition adjusted_probability (bonus_days : list Z) (dow hour : Z)
    (critical : bool) (size : string) (near : Q) : Q :=
  clamp 0 0.95
    (0.010
     + (if ((16 <=? hour) && (hour <=? 18))%Z then 0.040 else 0)
     + (if in_set dow bonus_days then 0.010 else 0)
     + (if ((dow =? 4) && ((15 <=? hour) && (hour <=? 18)))%Z then 0.025 else 0)
     + (if critical then 0.020 else 0)
     + (if String.eqb size "large" then 0.030
        else if String.eqb size "medium" then 0.015 else 0)
     + Qmin 0.08 (near * 0.02)).

(** Monday is day 0, so Tuesday and Wednesday are days 1 and 2. *)
Definition tue_wed : list Z := [1; 2]%Z.
Definition wed_thu : list Z := [2; 3]%Z.

(** The probability in the words of the specification: the +0.010 goes to
    Tuesday and Wednesday. *)
Definition spec_probability := adjusted_probability tue_wed.

(** The same sum with the +0.010 on Wednesday and Thursday. *)
Definition wed_thu_probability := adjusted_probability wed_thu.

(** Section 4.3, step 1: the summed traffic of the match rows of one hour. *)
Definition hour_intensity (matches_df : list MatchEvent) (h : Timestamp) : Q :=
  fold_right Qplus 0
    (map traffic_multiplier
         (filter (fun m => (floor_h (m_timestamp m) =? h)%Z) matches_df)).

(** Section 4.3, step 2: the largest hourly intensity from two hours before
    to two hours after the hour of [ts]. *)
Definition spec_near_intensity (matches_df : list MatchEvent) (ts : Timestamp) : Q :=
  let h := floor_h ts in
  let at_offset k := hour_intensity matches_df (h + Timedelta_hours k)%Z in
  Qmax (at_offset (-2)%Z)
    (Qmax (at_offset (-1)%Z)
       (Qmax (at_offset 0%Z)
          (Qmax (at_offset 1%Z) (at_offset 2%Z)))).

(** The last hour of the grid of [_hours_between]. *)
Definition last_grid_hour (start_date end_date : Timestamp) : Timestamp :=
  (start_date + Timedelta_hours ((end_date - start_date) / NS_PER_HOUR))%Z.

(** ** The incident generator in binary64 *)

(** [generate_incidents] on IEEE binary64 numbers (primitive floats), with the
    additions and comparisons of the code in the order the code makes them.
    The two pandas reductions it calls, the per-group [sum] and the series
    [max], are parameters [pd_sum] and [pd_max]: how pandas orders and
    compensates a summation is not part of this repository. *)

Record MatchEvent64 := mkMatchEvent64 {
  m64_timestamp : Timestamp;
  m64_tournament : string;
  m64_traffic_multiplier : float
}.

(** The draws of [generate_incidents] on [np.random]; [randint(lo, hi)] is in
    [lo, hi). *)
Class FloatSource (G : Type) := {
  rand64 : G -> float * G;
  poisson64 : float -> G -> nat * G;
  randint64 : Z -> Z -> G -> Z * G;
  randint64_range : forall lo hi g,
    (lo < hi)%Z -> (lo <= fst (randint64 lo hi g) < hi)%Z
}.

(** Python's builtin [min(a, b)] and [max(a, b)] on floats; a NaN second
    argument never wins the comparison. *)
Definition py_min64 (a b : float) : float := if (b <? a)%float then b else a.
Definition py_max64 (a b : float) : float := if (a <? b)%float then b else a.

(** [np.clip(x, lo, hi)]: numpy computes [min(max(x, lo), hi)] where a NaN
    first argument is returned as it is. *)
Definition np_maximum64 (a b : float) : float :=
  if is_nan a || (b <? a)%float then a else b.
Definition np_minimum64 (a b : float) : float :=
  if is_nan a || (a <? b)%float then a else b.
Definition np_clip64 (x lo hi : float) : float :=
  np_minimum64 (np_maximum64 x lo) hi.

(** Lines 179-193 on binary64. *)
Definition raw_probability64 (dow hour : Z) (dep : DeployEvent) (near : float) : float :=
  let p := 0.010%float in
  let p := if ((16 <=? hour) && (hour <=? 18))%Z then (p + 0.040)%float else p in
  let p := if in_set dow [2; 3]%Z then (p + 0.010)%float else p in
  let p := if ((dow =? 4) && ((15 <=? hour) && (hour <=? 18)))%Z
           then (p + 0.025)%float else p in
  let p := if is_critical_fix dep then (p + 0.020)%float else p in
  let p := if String.eqb (deploy_size dep) "large" then (p + 0.030)%float
           else if String.eqb (deploy_size dep) "medium" then (p + 0.015)%float
           else p in
  (p + py_min64 0.08 (near * 0.02))%float.

(** Line 194. *)
Definition incident_probability64 (dow hour : Z) (dep : DeployEvent) (near : float)
  : float :=
  np_clip64 (raw_probability64 dow hour dep near) 0.0 0.95.

(** Lines 197-202: [p >= 0.12], then [p >= 0.07]. *)
Definition deploy_severity64 (p : float) : string :=
  if (0.12 <=? p)%float then "high"
  else if (0.07 <=? p)%float then "medium"
  else "low".

(** Lines 220-225. *)
Definition load_severity64 (intensity : float) : string :=
  if (4.5 <=? intensity)%float then "high"
  else if (3.0 <=? intensity)%float then "medium"
  else "low".

(** The hours of a table, each once, in increasing order: the index of the
    grouped and sorted series. *)
Fixpoint insert_hour (h : Z) (hs : list Z) : list Z :=
  match hs with
  | [] => [h]
  | k :: hs' =>
      if (h <? k)%Z then h :: hs
      else if (h =? k)%Z then hs
      else k :: insert_hour h hs'
  end.

Definition hours_of (matches_df : list MatchEvent64) : list Z :=
  fold_right insert_hour [] (map (fun m => floor_h (m64_timestamp m)) matches_df).

(** The multipliers of the rows of the hour [h], in row order: one group of
    [groupby("hour")["traffic_multiplier"]]. *)
Definition hour_group (matches_df : list MatchEvent64) (h : Z) : list float :=
  map m64_traffic_multiplier
      (filter (fun m => (floor_h (m64_timestamp m) =? h)%Z) matches_df).

Fixpoint series_get64 (s : list (Z * float)) (h : Z) (fill : float) : float :=
  match s with
  | [] => fill
  | (k, v) :: s' => if (h =? k)%Z then v else series_get64 s' h fill
  end.

Section Binary64.
Variable pd_sum : list float -> float.
Variable pd_max : list float -> float.

(** Lines 154-162: empty series for an empty table, else the sum of every
    group, by increasing hour. *)
Definition hourly_match64 (matches_df : list MatchEvent64) : list (Z * float) :=
  match matches_df with
  | [] => []
  | _ :: _ => map (fun h => (h, pd_sum (hour_group matches_df h))) (hours_of matches_df)
  end.

(** Lines 170-177. *)
Definition near_match_intensity64 (hourly_match : list (Z * float)) (ts : Z) : float :=
  pd_max (map (fun h => series_get64 hourly_match h 0.0%float) (near_hours (floor_h ts))).

Definition deploy_p64 (hourly_match : list (Z * float)) (dep : DeployEvent) : float :=
  let ts := d_timestamp dep in
  incident_probability64 (dayofweek ts) (hour ts) dep
    (near_match_intensity64 hourly_match ts).

Context {G : Type} `{FloatSource G}.

(** Lines 165-210. *)
Definition deploy_incident64 (hourly_match : list (Z * float)) (dep : DeployEvent)
  : Gen G (list Incident) :=
  let ts := d_timestamp dep in
  let p := deploy_p64 hourly_match dep in
  bind rand64 (fun u =>
  if (u <? p)%float
  then ret [mkIncident ts "deploy_incident" (deploy_severity64 p)]
  else ret []).

(** Lines 217-233. *)
Definition one_load_incident64 (hour_ts : Z) (intensity : float)
  : Gen G (list Incident) :=
  bind (randint64 0 60) (fun minute =>
  let ts := (hour_ts + Timedelta_minutes minute)%Z in
  ret [mkIncident ts "load_incident" (load_severity64 intensity)]).

(** Lines 212-233. *)
Definition load_incidents64 (entry : Z * float) : Gen G (list Incident) :=
  let lam := py_max64 0.0 (0.03 * snd entry)%float in
  bind (poisson64 lam) (fun n_load =>
  for_range n_load (one_load_incident64 (fst entry) (snd entry))).

Definition incident_rows64 (deploys_df : list DeployEvent)
    (matches_df : list MatchEvent64) : Gen G (list Incident) :=
  let hourly_match := hourly_match64 matches_df in
  bind (for_each deploys_df (deploy_incident64 hourly_match)) (fun rows1 =>
  bind (for_each hourly_match load_incidents64) (fun rows2 =>
  ret (rows1 ++ rows2))).

Definition generate_incidents64 (deploys_df : list DeployEvent)
    (matches_df : list MatchEvent64) : Gen G (result (DataFrame Incident)) :=
  bind (incident_rows64 deploys_df matches_df) (fun rows =>
  ret (sorted_frame incident_columns rows)).
End Binary64.

(** A source that replays recorded floats and integers. *)
Record Replay64 := mkReplay64 {
  float_draws : list float;
  int_draws : list Z
}.

Definition replay_rand64 (g : Replay64) : float * Replay64 :=
  match float_draws g with
  | [] => (0%float, g)
  | x :: xs => (x, mkReplay64 xs (int_draws g))
  end.

Definition next_int (g : Replay64) : Z * Replay64 :=
  match int_draws g with
  | [] => (0%Z, g)
  | z :: zs => (z, mkReplay64 (float_draws g) zs)
  end.

Definition replay_poisson64 (lam : float) (g : Replay64) : nat * Replay64 :=
  let (z, g') := next_int g in (Z.to_nat z, g').

Definition replay_randint64 (lo hi : Z) (g : Replay64) : Z * Replay64 :=
  let (z, g') := next_int g in ((lo + z mod (hi - lo))%Z, g').

(** One way to sum and to take the maximum, for sample runs. *)
Definition fold_sum64 (xs : list float) : float :=
  fold_left PrimFloat.add xs 0%float.
Definition fold_max64 (xs : list float) : float :=
  match xs with
  | [] => nan
  | x :: xs' => fold_left (fun a b => if (a <? b)%float then b else a) xs' x
  end.

(** The probability in the words of the specification, on binary64: the
    adjustments added in the order they are listed, then clipped. *)
Definition adjusted_probability64 (bonus_days : list Z) (dow hour : Z)
    (critical : bool) (size : string) (near : float) : float :=
  np_clip64
    (0.010
     + (if ((16 <=? hour) && (hour <=? 18))%Z then 0.040 else 0)
     + (if in_set dow bonus_days then 0.010 else 0)
     + (if ((dow =? 4) && ((15 <=? hour) && (hour <=? 18)))%Z then 0.025 else 0)
     + (if critical then 0.020 else 0)
     + (if String.eqb size "large" then 0.030
        else if String.eqb size "medium" then 0.015 else 0)
     + py_min64 0.08 (near * 0.02))%float
    0.0 0.95.

(** Severity by threshold as the specification words it, with the
    comparisons of binary64. *)
Definition spec_severity64 (p : float) (sev : string) : Prop :=
  ((0.12 <=? p)%float = true -> sev = "high"%string) /\
  ((0.07 <=? p)%float = true /\ (p <? 0.12)%float = true -> sev = "medium"%string) /\
  ((0.12 <=? p)%float = false /\
   ((0.07 <=? p) && (p <? 0.12))%float = false -> sev = "low"%string).

Definition spec_load_severity64 (intensity : float) (sev : string) : Prop :=
  ((4.5 <=? intensity)%float = true -> sev = "high"%string) /\
  ((3.0 <=? intensity)%float = true /\ (intensity <? 4.5)%float = true ->
   sev = "medium"%string) /\
  ((4.5 <=? intensity)%float = false /\
   ((3.0 <=? intensity) && (intensity <? 4.5))%float = false -> sev = "low"%string).

(** Rows of the two loops of the binary64 generator. *)
Definition deploy_incident64_ok (p : float) (dep : DeployEvent) (r : Incident) : Prop :=
  i_timestamp r = d_timestamp dep /\
  incident_type r = "deploy_incident"%string /\
  severity r = deploy_severity64 p.

Definition load_incident64_ok (entry : Z * float) (r : Incident) : Prop :=
  (fst entry <= i_timestamp r <= fst entry + Timedelta_minutes 59)%Z /\
  incident_type r = "load_incident"%string /\
  severity r = load_severity64 (snd entry).

(** Sample inputs of the binary64 generator: Monday 09:00 and Friday 17:00. *)
Definition monday_9h : Z := (4 * NS_PER_DAY + 9 * NS_PER_HOUR)%Z.
Definition monday_small_deploy : DeployEvent := mkDeployEvent monday_9h false "small".
Definition monday_match64 : MatchEvent64 := mkMatchEvent64 monday_9h "Weekend matches" 3.0.
Definition incident_draws64 : Replay64 := mkReplay64 [0%float] [1; 15]%Z.

(** ** Orderings used in the statements *)

(** Non-decreasing timestamps, on rows and on indexed rows. *)
Definition ts_le {R} `{Timestamped R} (a b : R) : Prop :=
  (timestamp a <= timestamp b)%Z.
Definition rec_le {R} `{Timestamped R} (a b : nat * R) : Prop :=
  ts_le (snd a) (snd b).

(** The hours of a series strictly increase. *)
Definition keys_increasing (s : list (Z * Q)) : Prop :=
  StronglySorted Z.lt (map fst s).

(** The sizes, severities and incident types of the data model. *)
Definition deploy_sizes : list string := ["small"; "medium"; "large"]%string.
Definition severities : list string := ["low"; "medium"; "high"]%string.
Definition incident_types : list string := ["deploy_incident"; "load_incident"]%string.

(** ** What a row appended by each loop looks like *)

(** A match row carries the hour it was drawn for and a clipped multiplier. *)
Definition match_row_ok (ts : Z) (r : MatchEvent) : Prop :=
  m_timestamp r = ts /\ 1.0 <= traffic_multiplier r /\ traffic_multiplier r <= 3.2.

(** A deploy row lies in the hour it was drawn for and has a listed size. *)
Definition deploy_row_ok (hour_ts : Z) (r : DeployEvent) : Prop :=
  (hour_ts <= d_timestamp r <= hour_ts + Timedelta_minutes 59)%Z /\
  In (deploy_size r) deploy_sizes.

(** A row of the deploy loop of [generate_incidents]. *)
Definition deploy_incident_ok (hourly_match : list (Z * Q)) (dep : DeployEvent)
    (r : Incident) : Prop :=
  i_timestamp r = d_timestamp dep /\
  incident_type r = "deploy_incident"%string /\
  severity r = deploy_severity (deploy_p hourly_match dep).

(** A row of the loop over the hourly series. *)
Definition load_incident_ok (entry : Z * Q) (r : Incident) : Prop :=
  (fst entry <= i_timestamp r <= fst entry + Timedelta_minutes 59)%Z /\
  incident_type r = "load_incident"%string /\
  severity r = load_severity (snd entry).

(** A row of [generate_incidents] comes from one of its two loops. *)
Definition incident_row_ok (deploys_df : list DeployEvent)
    (hourly_match : list (Z * Q)) (r : Incident) : Prop :=
  (exists dep, In dep deploys_df /\ deploy_incident_ok hourly_match dep r) \/
  (exists entry, In entry hourly_match /\ load_incident_ok entry r).

(** ** Further notions used in the statements *)

(** The test of line 69: the hour [ts] falls in the window [cfg]. *)
Definition window_open (ts : Z) (cfg : Window) : bool :=
  in_set (dayofweek ts) (w_days cfg) && in_range (hour ts) (w_hours cfg).

(** The names of the five windows. *)
Definition tournaments : list string := map w_name windows.

Definition is_deploy_incident (r : Incident) : bool :=
  String.eqb (incident_type r) "deploy_incident".

(** The sum of a series, and of the multipliers of a table. *)
Definition series_total (s : list (Z * Q)) : Q := fold_right Qplus 0 (map snd s).
Definition total_traffic (matches_df : list MatchEvent) : Q :=
  fold_right Qplus 0 (map traffic_multiplier matches_df).

(** The match row is at most two hours away from the hour of [ts]. *)
Definition in_near_window (ts : Z) (m : MatchEvent) : bool :=
  ((floor_h ts - Timedelta_hours 2 <=? floor_h (m_timestamp m))
   && (floor_h (m_timestamp m) <=? floor_h ts + Timedelta_hours 2))%Z.

(** A match row drawn at the hour [ts] for the window [cfg]. *)
Definition match_row_of_window (ts : Z) (cfg : Window) (r : MatchEvent) : Prop :=
  m_timestamp r = ts /\ tournament r = w_name cfg /\ window_open ts cfg = true.

(** A critical fix is small or medium. *)
Definition critical_size_ok (r : DeployEvent) : Prop :=
  is_critical_fix r = true -> In (deploy_size r) ["small"; "medium"]%string.

(** Monday 1970-01-05, 00:00, and Friday 1970-01-09, 16:00. *)
Definition monday_0h : Z := (4 * NS_PER_DAY)%Z.
Definition friday_16h : Z := (8 * NS_PER_DAY + 16 * NS_PER_HOUR)%Z.

(** Draws that give one critical deploy of medium size. *)
Definition critical_draws : list Q := [1; 5; 0.1; 1].

(** ** Sample inputs *)

(** 1970-01-01 was a Thursday. *)
Definition thursday_0h : Z := 0%Z.
Definition monday_17h : Z := (4 * NS_PER_DAY + 17 * NS_PER_HOUR)%Z.
Definition tuesday_9h : Z := (5 * NS_PER_DAY + 9 * NS_PER_HOUR)%Z.
Definition wednesday_20h : Z := (6 * NS_PER_DAY + 20 * NS_PER_HOUR)%Z.

Definition tuesday_deploy : DeployEvent :=
  mkDeployEvent tuesday_9h false "small".
Definition monday_deploy : DeployEvent :=
  mkDeployEvent (monday_17h + Timedelta_minutes 30)%Z true "large".
Definition wednesday_match : MatchEvent :=
  mkMatchEvent wednesday_20h "Brasileirao" 2.0.

(** Draws for one run of each generator. *)
Definition match_draws : Replay := [0; 0; 0.9; 0.9; 0.9].
Definition deploy_draws : Replay := [1; 59; 0.5; 0].
Definition incident_draws : Replay := [0; 1; 15].

(** * Properties *)

(** ** Calendar arithmetic *)

Lemma dayofweek_range (ts : Timestamp) : (0 <= dayofweek ts <= 6)%Z.
Proof. unfold dayofweek. pose proof (Z.mod_pos_bound (ts / NS_PER_DAY + 3) 7). lia. Qed.

Lemma hour_range (ts : Timestamp) : (0 <= hour ts <= 23)%Z.
Proof. unfold hour. pose proof (Z.mod_pos_bound (ts / NS_PER_HOUR) 24). lia. Qed.

Lemma NS_PER_HOUR_pos : (0 < NS_PER_HOUR)%Z.
Proof. reflexivity. Qed.

Lemma floor_h_bounds (ts : Timestamp) :
  (floor_h ts <= ts < floor_h ts + NS_PER_HOUR)%Z.
Proof.
  unfold floor_h.
  pose proof (Z.mul_div_le ts NS_PER_HOUR NS_PER_HOUR_pos).
  pose proof (Z.mul_succ_div_gt ts NS_PER_HOUR NS_PER_HOUR_pos).
  lia.
Qed.

Lemma floor_h_shift (ts k : Z) :
  (floor_h (floor_h ts + Timedelta_hours k) = floor_h ts + Timedelta_hours k)%Z.
Proof.
  unfold floor_h, Timedelta_hours.
  replace (NS_PER_HOUR * (ts / NS_PER_HOUR) + k * NS_PER_HOUR)%Z
    with ((ts / NS_PER_HOUR + k) * NS_PER_HOUR)%Z by ring.
  rewrite Z.div_mul by (pose proof NS_PER_HOUR_pos; lia). ring.
Qed.

Lemma date_range_h_In (s e t : Timestamp) :
  In t (date_range_h s e) <->
  exists k : Z, (0 <= k <= (e - s) / NS_PER_HOUR)%Z /\ t = (s + Timedelta_hours k)%Z.
Proof.
  unfold date_range_h. rewrite in_map_iff. split.
  - intros [n [Ht Hn]]. apply in_seq in Hn. exists (Z.of_nat n). split; [lia | auto].
  - intros [k [Hk Ht]]. exists (Z.to_nat k). split.
    + rewrite Z2Nat.id by lia. auto.
    + apply in_seq. lia.
Qed.

Lemma date_range_h_empty (s e : Timestamp) :
  (e < s)%Z -> date_range_h s e = [].
Proof.
  intros Hlt. unfold date_range_h.
  assert (Hd : ((e - s) / NS_PER_HOUR < 0)%Z)
    by (apply Z.div_lt_upper_bound; [apply NS_PER_HOUR_pos | lia]).
  replace (Z.to_nat ((e - s) / NS_PER_HOUR + 1)) with O by lia.
  reflexivity.
Qed.

Lemma date_range_h_bounds (s e t : Timestamp) :
  In t (date_range_h s e) -> (s <= t <= last_grid_hour s e)%Z /\ (t <= e)%Z.
Proof.
  intros Hin. apply date_range_h_In in Hin. destruct Hin as [k [Hk ->]].
  unfold last_grid_hour, Timedelta_hours.
  pose proof NS_PER_HOUR_pos as Hp.
  pose proof (Z.mul_div_le (e - s) NS_PER_HOUR Hp).
  nia.
Qed.

Lemma near_hours_floor (ts : Timestamp) :
  near_hours (floor_h ts) =
  map (fun k => (floor_h ts + Timedelta_hours k)%Z) [-2; -1; 0; 1; 2]%Z.
Proof.
  unfold near_hours, date_range_h.
  replace (floor_h ts + Timedelta_hours 2 - (floor_h ts - Timedelta_hours 2))%Z
    with (4 * NS_PER_HOUR)%Z by (unfold Timedelta_hours; ring).
  rewrite Z.div_mul by (pose proof NS_PER_HOUR_pos; lia).
  change (Z.to_nat (4 + 1)) with 5%nat.
  unfold Timedelta_hours. cbn [seq map].
  repeat (f_equal; try (cbn [Z.of_nat Pos.of_succ_nat Pos.succ]; ring)).
Qed.

(** ** Comparisons on rationals *)

Lemma Qltb_lt (x y : Q) : Qltb x y = true <-> x < y.
Proof.
  unfold Qltb. rewrite negb_true_iff. split.
  - intros Hb. apply Qnot_le_lt. intros Hle.
    apply Qle_bool_iff in Hle. congruence.
  - intros Hlt. destruct (Qle_bool y x) eqn:E; [| reflexivity].
    apply Qle_bool_iff in E. exfalso. apply (Qlt_not_le _ _ Hlt E).
Qed.

Lemma Qltb_ge (x y : Q) : Qltb x y = false <-> y <= x.
Proof.
  unfold Qltb. rewrite negb_false_iff. apply Qle_bool_iff.
Qed.

Lemma Qle_bool_false (x y : Q) : Qle_bool x y = false <-> y < x.
Proof.
  rewrite <- Qltb_lt. unfold Qltb. rewrite negb_true_iff. reflexivity.
Qed.


Lemma py_min_Qmin (a b : Q) : py_min a b == Qmin a b.
Proof.
  unfold py_min. destruct (Qltb b a) eqn:E.
  - apply Qltb_lt in E. symmetry. apply Q.min_r. apply Qlt_le_weak, E.
  - apply Qltb_ge in E. symmetry. apply Q.min_l. exact E.
Qed.

Lemma np_clip_clamp (x lo hi : Q) : lo <= hi -> np_clip x lo hi == clamp lo hi x.
Proof.
  intros Hle. unfold np_clip, clamp.
  destruct (Q.max_spec x lo) as [[H1 E1] | [H1 E1]];
  destruct (Q.min_spec x hi) as [[H2 E2] | [H2 E2]];
  destruct (Q.min_spec hi (Qmax x lo)) as [[H3 E3] | [H3 E3]];
  destruct (Q.max_spec lo (Qmin x hi)) as [[H4 E4] | [H4 E4]];
  lra.
Qed.

Lemma np_clip_bounds (x lo hi : Q) : lo <= hi -> lo <= np_clip x lo hi /\ np_clip x lo hi <= hi.
Proof.
  intros Hle. unfold np_clip. split.
  - apply Q.min_glb; [exact Hle | apply Q.le_max_r].
  - apply Q.le_min_l.
Qed.

(** ** Loops that collect rows *)

Section Loops.
Context {G A R : Type}.

Lemma for_each_Forall (P : R -> Prop) (l : list A) (body : A -> Gen G (list R)) :
  (forall a g, In a l -> Forall P (fst (body a g))) ->
  forall g, Forall P (fst (for_each l body g)).
Proof.
  induction l as [| a l IH]; intros Hbody g; cbn [for_each].
  - constructor.
  - unfold bind, ret.
    pose proof (Hbody a g (or_introl eq_refl)) as Ha.
    destruct (body a g) as [rows g1].
    assert (Hl : Forall P (fst (for_each l body g1)))
      by (apply IH; intros; apply Hbody; right; assumption).
    destruct (for_each l body g1) as [rest g2].
    apply Forall_app. split; assumption.
Qed.

Lemma for_range_Forall (P : R -> Prop) (n : nat) (body : Gen G (list R)) :
  (forall g, Forall P (fst (body g))) ->
  forall g, Forall P (fst (for_range n body g)).
Proof.
  intros Hbody. induction n as [| n IH]; intros g; cbn [for_range].
  - constructor.
  - unfold bind, ret.
    pose proof (Hbody g) as Ha.
    destruct (body g) as [rows g1].
    pose proof (IH g1) as Hl.
    destruct (for_range n body g1) as [rest g2].
    apply Forall_app. split; assumption.
Qed.

Lemma for_each_nil (body : A -> Gen G (list R)) (g : G) :
  for_each [] body g = ([], g).
Proof. reflexivity. Qed.
End Loops.

(** ** Sorting a frame by timestamp *)

Section SortedFrame.
Context {R : Type} `{Timestamped R}.

Lemma insert_by_timestamp_perm (x : nat * R) (l : list (nat * R)) :
  Permutation (x :: l) (insert_by_timestamp x l).
Proof.
  induction l as [| y l IH]; cbn [insert_by_timestamp].
  - apply Permutation_refl.
  - destruct (timestamp (snd x) <? timestamp (snd y))%Z.
    + apply Permutation_refl.
    + apply perm_trans with (y :: x :: l); [apply perm_swap |].
      apply perm_skip, IH.
Qed.

Lemma insert_by_timestamp_HdRel (a x : nat * R) (l : list (nat * R)) :
  rec_le a x -> HdRel rec_le a l -> HdRel rec_le a (insert_by_timestamp x l).
Proof.
  intros Hax Hal. destruct l as [| y l]; cbn [insert_by_timestamp].
  - constructor. exact Hax.
  - destruct (timestamp (snd x) <? timestamp (snd y))%Z.
    + constructor. exact Hax.
    + constructor. inversion Hal; assumption.
Qed.

Lemma insert_by_timestamp_sorted (x : nat * R) (l : list (nat * R)) :
  Sorted rec_le l -> Sorted rec_le (insert_by_timestamp x l).
Proof.
  induction l as [| y l IH]; intros Hs; cbn [insert_by_timestamp].
  - repeat constructor.
  - destruct (Z.ltb_spec (timestamp (snd x)) (timestamp (snd y))) as [Hlt | Hge].
    + constructor; [exact Hs |]. constructor. unfold rec_le, ts_le. lia.
    + inversion Hs as [| ? ? Hs' Hhd]; subst.
      constructor; [apply IH, Hs' |].
      apply insert_by_timestamp_HdRel; [exact Hge | exact Hhd].
Qed.

Lemma sort_records_perm (l : list (nat * R)) : Permutation l (sort_records l).
Proof.
  unfold sort_records.
  apply perm_trans with (rev l); [apply Permutation_rev |].
  induction (rev l) as [| x l' IH]; cbn [fold_right].
  - apply Permutation_refl.
  - apply perm_trans with (x :: fold_right insert_by_timestamp [] l').
    + apply perm_skip, IH.
    + apply insert_by_timestamp_perm.
Qed.

Lemma sort_records_sorted (l : list (nat * R)) : Sorted rec_le (sort_records l).
Proof.
  unfold sort_records. induction (rev l) as [| x l' IH]; cbn [fold_right].
  - constructor.
  - apply insert_by_timestamp_sorted, IH.
Qed.

Lemma Sorted_map_snd (l : list (nat * R)) :
  Sorted rec_le l -> Sorted ts_le (map snd l).
Proof.
  induction 1 as [| a l Hs IH Hhd]; cbn [map].
  - constructor.
  - constructor; [exact IH |].
    destruct Hhd; cbn [map]; constructor. assumption.
Qed.

Lemma map_snd_combine_seq (rows : list R) (k : nat) :
  map snd (combine (seq k (List.length rows)) rows) = rows.
Proof.
  revert k. induction rows as [| r rows IH]; intros k; cbn; [reflexivity |].
  f_equal. apply IH.
Qed.

Lemma map_fst_combine_seq (rows : list R) (k : nat) :
  map fst (combine (seq k (List.length rows)) rows) = seq k (List.length rows).
Proof.
  revert k. induction rows as [| r rows IH]; intros k; cbn; [reflexivity |].
  f_equal. apply IH.
Qed.

Lemma reset_index_drop_rows (df : DataFrame R) :
  rows_of (reset_index_drop df) = rows_of df.
Proof.
  unfold rows_of, reset_index_drop. cbn [records].
  rewrite <- (length_map snd (records df)). apply map_snd_combine_seq.
Qed.

Lemma reset_index_drop_index (df : DataFrame R) :
  index (reset_index_drop df) = seq 0 (List.length (rows_of df)).
Proof.
  unfold index, rows_of, reset_index_drop. cbn [records].
  rewrite <- (length_map snd (records df)) at 1.
  rewrite map_fst_combine_seq. reflexivity.
Qed.

(** What the closing line of a generator returns. *)
Lemma sorted_frame_nil (keys : list string) :
  sorted_frame keys ([] : list R) = KeyError "timestamp".
Proof. reflexivity. Qed.

Lemma sorted_frame_Ok (keys : list string) (rows : list R) (df : DataFrame R) :
  sorted_frame keys rows = Ok df ->
  rows <> [] /\
  Permutation rows (rows_of df) /\
  Sorted ts_le (rows_of df) /\
  index df = seq 0 (List.length (rows_of df)).
Proof.
  unfold sorted_frame, sort_values_timestamp.
  destruct (existsb (String.eqb "timestamp") (columns (DataFrame_of_rows keys rows))) eqn:E;
    [| discriminate].
  intros Heq. injection Heq as <-.
  rewrite reset_index_drop_rows, reset_index_drop_index.
  unfold rows_of at 1 2 3. cbn [records DataFrame_of_rows].
  split; [| split; [| split]].
  - intros ->. cbn in E. discriminate.
  - apply perm_trans with (map snd (combine (seq 0 (List.length rows)) rows)).
    + rewrite map_snd_combine_seq. apply Permutation_refl.
    + apply Permutation_map, sort_records_perm.
  - apply Sorted_map_snd, sort_records_sorted.
  - reflexivity.
Qed.

Lemma sorted_frame_nonempty (keys : list string) (rows : list R) :
  rows <> [] -> In "timestamp"%string keys ->
  exists df, sorted_frame keys rows = Ok df.
Proof.
  intros Hne Hin. unfold sorted_frame, sort_values_timestamp.
  assert (E : existsb (String.eqb "timestamp") (columns (DataFrame_of_rows keys rows)) = true).
  { destruct rows as [| r rows]; [congruence |]. cbn [DataFrame_of_rows columns].
    apply existsb_exists. exists "timestamp"%string. split; [exact Hin | apply String.eqb_refl]. }
  rewrite E. eexists. reflexivity.
Qed.

Lemma sorted_frame_In (keys : list string) (rows : list R) (df : DataFrame R) (r : R) :
  sorted_frame keys rows = Ok df -> In r (rows_of df) -> In r rows.
Proof.
  intros Hok Hin. apply sorted_frame_Ok in Hok. destruct Hok as [_ [Hp _]].
  apply Permutation_sym in Hp. apply (Permutation_in _ Hp Hin).
Qed.
End SortedFrame.

(** ** The replaying source obeys the laws of the interface *)

Lemma replay_rand_range (g : Replay) :
  0 <= fst (replay_rand g) /\ fst (replay_rand g) < 1.
Proof.
  unfold replay_rand. destruct (next_draw g) as [x g']. cbn [fst].
  destruct (Qle_bool 0 x) eqn:E1; cbn [andb].
  - destruct (Qltb x 1) eqn:E2.
    + split; [apply Qle_bool_iff, E1 | apply Qltb_lt, E2].
    + split; [apply Qle_refl | reflexivity].
  - split; [apply Qle_refl | reflexivity].
Qed.

Lemma replay_randint_range (lo hi : Z) (g : Replay) :
  (lo < hi)%Z -> (lo <= fst (replay_randint lo hi g) < hi)%Z.
Proof.
  intros Hlt. unfold replay_randint. destruct (next_draw g) as [x g']. cbn [fst].
  pose proof (Z.mod_pos_bound (Qfloor x) (hi - lo)). lia.
Qed.

Lemma replay_choice_In (l : list string) (p : list Q) (g : Replay) :
  l <> [] -> In (fst (replay_choice l p g)) l.
Proof.
  intros Hne. unfold replay_choice. destruct (next_draw g) as [x g']. cbn [fst].
  apply nth_In. apply Nat.mod_upper_bound.
  destruct l; [congruence | cbn; lia].
Qed.

#[export] Instance Replay_source : RandomSource Replay := {|
  rand := replay_rand;
  normal := replay_normal;
  poisson := replay_poisson;
  randint := replay_randint;
  choice := replay_choice;
  rand_range := replay_rand_range;
  randint_range := replay_randint_range;
  choice_In := replay_choice_In
|}.

(** ** The hourly series *)

Lemma group_add_keys (h k : Z) (x : Q) (s : list (Z * Q)) :
  In k (map fst (group_add h x s)) -> k = h \/ In k (map fst s).
Proof.
  induction s as [| [k0 v0] s IH]; cbn [group_add map fst In].
  - intros [E | []]. left. congruence.
  - destruct (h <? k0)%Z; [| destruct (Z.eqb_spec h k0)]; cbn [map fst In].
    + intros [E | [E | Hin]]; auto.
    + auto.
    + intros [E | Hin]; auto. destruct (IH Hin); auto.
Qed.

Lemma group_add_increasing (h : Z) (x : Q) (s : list (Z * Q)) :
  keys_increasing s -> keys_increasing (group_add h x s).
Proof.
  unfold keys_increasing.
  induction s as [| [k0 v0] s IH]; intros Hs; cbn [group_add].
  - repeat constructor.
  - cbn [map fst] in Hs. inversion Hs as [| ? ? Hs' Hall]; subst.
    destruct (Z.ltb_spec h k0) as [Hlt | Hge]; [| destruct (Z.eqb_spec h k0) as [-> | Hne]];
      cbn [map fst].
    + constructor; [exact Hs |]. constructor; [exact Hlt |].
      eapply Forall_impl; [| exact Hall]. intros a Ha. cbv beta in Ha. lia.
    + constructor; assumption.
    + constructor; [apply IH, Hs' |].
      apply Forall_forall. intros k Hk. apply group_add_keys in Hk.
      destruct Hk as [-> | Hk]; [lia |].
      rewrite Forall_forall in Hall. apply Hall, Hk.
Qed.

Lemma series_get_absent (s : list (Z * Q)) (k : Z) (fill : Q) :
  ~ In k (map fst s) -> series_get s k fill = fill.
Proof.
  induction s as [| [k0 v0] s IH]; cbn [series_get map fst In]; intros Hn.
  - reflexivity.
  - destruct (Z.eqb_spec k k0) as [-> | Hne]; [tauto |]. apply IH. tauto.
Qed.

Lemma series_get_group_add (h k : Z) (x : Q) (s : list (Z * Q)) :
  keys_increasing s ->
  series_get (group_add h x s) k 0 ==
  series_get s k 0 + (if (k =? h)%Z then x else 0).
Proof.
  unfold keys_increasing.
  induction s as [| [k0 v0] s IH]; intros Hs; cbn [group_add series_get].
  - destruct (k =? h)%Z; ring.
  - cbn [map fst] in Hs. inversion Hs as [| ? ? Hs' Hall]; subst.
    destruct (Z.ltb_spec h k0) as [Hlt | Hge]; [| destruct (Z.eqb_spec h k0) as [-> | Hne]];
      cbn [series_get].
    + destruct (Z.eqb_spec k h) as [-> | Hkh].
      * destruct (Z.eqb_spec h k0); [lia |].
        rewrite series_get_absent; [ring |].
        intros Hin. rewrite Forall_forall in Hall. specialize (Hall _ Hin). lia.
      * destruct (k =? k0)%Z; ring.
    + destruct (Z.eqb_spec k k0); ring.
    + destruct (Z.eqb_spec k k0) as [-> | Hkk].
      * destruct (Z.eqb_spec k0 h); [lia | ring].
      * apply IH, Hs'.
Qed.

Lemma hourly_fold_increasing (ms : list MatchEvent) (s : list (Z * Q)) :
  keys_increasing s ->
  keys_increasing
    (fold_left (fun s m => group_add (floor_h (m_timestamp m)) (traffic_multiplier m) s) ms s).
Proof.
  revert s. induction ms as [| m ms IH]; intros s Hs; cbn [fold_left].
  - exact Hs.
  - apply IH, group_add_increasing, Hs.
Qed.

Lemma hourly_fold_get (ms : list MatchEvent) (s : list (Z * Q)) (k : Z) :
  keys_increasing s ->
  series_get
    (fold_left (fun s m => group_add (floor_h (m_timestamp m)) (traffic_multiplier m) s) ms s)
    k 0
  == series_get s k 0 + hour_intensity ms k.
Proof.
  revert s. induction ms as [| m ms IH]; intros s Hs; cbn [fold_left].
  - unfold hour_intensity. cbn. ring.
  - rewrite IH by (apply group_add_increasing, Hs).
    rewrite series_get_group_add by exact Hs.
    unfold hour_intensity. cbn [filter].
    rewrite (Z.eqb_sym k).
    destruct (floor_h (m_timestamp m) =? k)%Z; cbn [map fold_right]; ring.
Qed.

Lemma hourly_fold_keys (ms : list MatchEvent) (s : list (Z * Q)) (k : Z) :
  In k (map fst
    (fold_left (fun s m => group_add (floor_h (m_timestamp m)) (traffic_multiplier m) s) ms s)) ->
  In k (map fst s) \/ exists m, In m ms /\ k = floor_h (m_timestamp m).
Proof.
  revert s. induction ms as [| m ms IH]; intros s; cbn [fold_left].
  - auto.
  - intros Hin. apply IH in Hin. destruct Hin as [Hin | [m' [Hm' E]]].
    + apply group_add_keys in Hin. destruct Hin as [-> | Hin]; [| auto].
      right. exists m. split; [left; reflexivity | reflexivity].
    + right. exists m'. split; [right; assumption | assumption].
Qed.

Lemma hourly_match_get (matches_df : list MatchEvent) (k : Z) :
  series_get (hourly_match_of matches_df) k 0 == hour_intensity matches_df k.
Proof.
  unfold hourly_match_of. destruct matches_df as [| m ms].
  - reflexivity.
  - rewrite hourly_fold_get by constructor. cbn [series_get]. ring.
Qed.

Lemma hourly_match_keys (matches_df : list MatchEvent) (k : Z) :
  In k (map fst (hourly_match_of matches_df)) ->
  exists m, In m matches_df /\ k = floor_h (m_timestamp m).
Proof.
  unfold hourly_match_of. destruct matches_df as [| m ms].
  - intros [].
  - intros Hin. apply hourly_fold_keys in Hin. destruct Hin as [[] | Hin]. exact Hin.
Qed.

(** ** The probability of a deploy incident *)

Lemma near_match_intensity_spec (matches_df : list MatchEvent) (ts : Z) :
  near_match_intensity (hourly_match_of matches_df) ts
  == spec_near_intensity matches_df ts.
Proof.
  unfold near_match_intensity, spec_near_intensity, reindex.
  rewrite near_hours_floor. cbn [map series_max fold_left].
  rewrite !hourly_match_get.
  rewrite <- !Q.max_assoc. reflexivity.
Qed.

Lemma raw_probability_sum (dow hour : Z) (dep : DeployEvent) (near : Q) :
  raw_probability dow hour dep near ==
  0.010
  + (if ((16 <=? hour) && (hour <=? 18))%Z then 0.040 else 0)
  + (if in_set dow wed_thu then 0.010 else 0)
  + (if ((dow =? 4) && ((15 <=? hour) && (hour <=? 18)))%Z then 0.025 else 0)
  + (if is_critical_fix dep then 0.020 else 0)
  + (if String.eqb (deploy_size dep) "large" then 0.030
     else if String.eqb (deploy_size dep) "medium" then 0.015 else 0)
  + Qmin 0.08 (near * 0.02).
Proof.
  unfold raw_probability, wed_thu. cbv zeta. rewrite py_min_Qmin.
  destruct ((16 <=? hour) && (hour <=? 18))%Z;
  destruct (in_set dow [2; 3]%Z);
  destruct ((dow =? 4) && ((15 <=? hour) && (hour <=? 18)))%Z;
  destruct (is_critical_fix dep);
  destruct (String.eqb (deploy_size dep) "large");
  destruct (String.eqb (deploy_size dep) "medium");
  ring.
Qed.

Lemma clamp_compat (lo hi x y : Q) : x == y -> clamp lo hi x == clamp lo hi y.
Proof. intros E. unfold clamp. rewrite E. reflexivity. Qed.

Lemma incident_probability_sum (dow hour : Z) (dep : DeployEvent) (near : Q) :
  incident_probability dow hour dep near ==
  wed_thu_probability dow hour (is_critical_fix dep) (deploy_size dep) near.
Proof.
  unfold incident_probability, wed_thu_probability, adjusted_probability.
  rewrite np_clip_clamp by (apply Qle_bool_iff; reflexivity).
  rewrite (clamp_compat _ _ _ _ (raw_probability_sum dow hour dep near)).
  unfold clamp. apply Q.max_compat; reflexivity.
Qed.

Lemma hour_intensity_nonneg (matches_df : list MatchEvent) (h : Z) :
  (forall m, In m matches_df -> 0 <= traffic_multiplier m) ->
  0 <= hour_intensity matches_df h.
Proof.
  unfold hour_intensity.
  induction matches_df as [| m ms IH]; intros Hall; cbn [filter map fold_right].
  - apply Qle_refl.
  - assert (Hms : 0 <= fold_right Qplus 0
        (map traffic_multiplier
           (filter (fun m0 => (floor_h (m_timestamp m0) =? h)%Z) ms)))
      by (apply IH; intros; apply Hall; right; assumption).
    destruct (floor_h (m_timestamp m) =? h)%Z; cbn [map fold_right]; [| exact Hms].
    pose proof (Hall m (or_introl eq_refl)). lra.
Qed.

Lemma near_match_intensity_nonneg (matches_df : list MatchEvent) (ts : Z) :
  (forall m, In m matches_df -> 0 <= traffic_multiplier m) ->
  0 <= near_match_intensity (hourly_match_of matches_df) ts.
Proof.
  intros Hall. rewrite near_match_intensity_spec. unfold spec_near_intensity.
  apply Qle_trans with (hour_intensity matches_df (floor_h ts + Timedelta_hours (-2))%Z).
  - apply hour_intensity_nonneg, Hall.
  - apply Q.le_max_l.
Qed.

Lemma raw_probability_bounds (dow hour : Z) (dep : DeployEvent) (near : Q) :
  0 <= near ->
  0.010 <= raw_probability dow hour dep near /\
  raw_probability dow hour dep near <= 0.205.
Proof.
  intros Hnear. rewrite raw_probability_sum. unfold wed_thu, in_set. cbn [existsb].
  assert (Hm : 0 <= Qmin 0.08 (near * 0.02) /\ Qmin 0.08 (near * 0.02) <= 0.08).
  { split; [apply Q.min_glb; lra | apply Q.le_min_l]. }
  destruct Hm as [Hm0 Hm1].
  destruct (Z.eqb_spec dow 2); destruct (Z.eqb_spec dow 3); destruct (Z.eqb_spec dow 4);
    try lia; cbn [orb andb];
  destruct ((16 <=? hour) && (hour <=? 18))%Z;
  destruct ((15 <=? hour) && (hour <=? 18))%Z;
  destruct (is_critical_fix dep);
  destruct (String.eqb (deploy_size dep) "large");
  destruct (String.eqb (deploy_size dep) "medium");
  split; lra.
Qed.

Lemma np_clip_inside (x lo hi : Q) : lo <= x -> x <= hi -> np_clip x lo hi == x.
Proof.
  intros H1 H2. unfold np_clip.
  rewrite (Q.max_l x lo) by exact H1. apply Q.min_r. exact H2.
Qed.

(** ** What each loop body appends *)

Lemma deploy_severity_In (p : Q) : In (deploy_severity p) severities.
Proof.
  unfold deploy_severity, severities.
  destruct (Qle_bool 0.12 p); [| destruct (Qle_bool 0.07 p)]; cbn; auto.
Qed.

Lemma load_severity_In (x : Q) : In (load_severity x) severities.
Proof.
  unfold load_severity, severities.
  destruct (Qle_bool 4.5 x); [| destruct (Qle_bool 3.0 x)]; cbn; auto.
Qed.

Section Bodies.
Context {G : Type} `{RandomSource G}.

Lemma match_window_rows (ts : Z) (cfg : Window) (g : G) :
  Forall (match_row_ok ts) (fst (match_window ts cfg g)).
Proof.
  unfold match_window. cbv zeta.
  destruct (in_set (dayofweek ts) (w_days cfg) && in_range (hour ts) (w_hours cfg));
    [| constructor].
  unfold bind, ret. destruct (rand g) as [u g1].
  destruct (Qltb u (w_prob cfg)); [| constructor].
  destruct (normal (w_base cfg) 0.20 g1) as [x g2]. cbn [fst].
  constructor; [| constructor].
  unfold match_row_ok. cbn [m_timestamp traffic_multiplier].
  split; [reflexivity |].
  apply np_clip_bounds. apply Qle_bool_iff. reflexivity.
Qed.

Lemma match_rows_ok (hours : list Z) (g : G) :
  Forall (fun r => exists ts, In ts hours /\ match_row_ok ts r)
         (fst (match_rows hours g)).
Proof.
  unfold match_rows. apply for_each_Forall. intros ts g0 Hts.
  apply for_each_Forall. intros cfg g1 _.
  eapply Forall_impl; [| apply match_window_rows].
  intros r Hr. exists ts. split; assumption.
Qed.

Lemma one_deploy_rows (hour_ts : Z) (g : G) :
  Forall (deploy_row_ok hour_ts) (fst (one_deploy hour_ts g)).
Proof.
  unfold one_deploy. cbv zeta. unfold bind, ret.
  pose proof (randint_range 0 60 g eq_refl) as Hm.
  destruct (randint 0 60 g) as [minute g1]. cbn [fst] in Hm.
  destruct (rand g1) as [u g2].
  destruct (Qltb u (base_crit (dayofweek hour_ts) (hour hour_ts))).
  - pose proof (choice_In ["small"; "medium"]%string [0.70; 0.30] g2
                  ltac:(discriminate)) as Hc.
    destruct (choice ["small"; "medium"]%string [0.70; 0.30] g2) as [size g3].
    cbn [fst] in Hc |- *. constructor; [| constructor].
    unfold deploy_row_ok, deploy_sizes. cbn [d_timestamp deploy_size].
    split; [unfold Timedelta_minutes, NS_PER_MINUTE; lia |].
    cbn [In] in Hc |- *. tauto.
  - pose proof (choice_In ["small"; "medium"; "large"]%string [0.45; 0.40; 0.15] g2
                  ltac:(discriminate)) as Hc.
    destruct (choice ["small"; "medium"; "large"]%string [0.45; 0.40; 0.15] g2)
      as [size g3].
    cbn [fst] in Hc |- *. constructor; [| constructor].
    unfold deploy_row_ok, deploy_sizes. cbn [d_timestamp deploy_size].
    split; [unfold Timedelta_minutes, NS_PER_MINUTE; lia | exact Hc].
Qed.

Lemma deploy_rows_ok (hours : list Z) (g : G) :
  Forall (fun r => exists hour_ts, In hour_ts hours /\ deploy_row_ok hour_ts r)
         (fst (deploy_rows hours g)).
Proof.
  unfold deploy_rows. apply for_each_Forall. intros hour_ts g0 Hin.
  unfold deploy_hour, bind.
  destruct (poisson (base_rate (dayofweek hour_ts) (hour hour_ts)) g0) as [n g1].
  eapply Forall_impl; [| apply for_range_Forall; intros; apply one_deploy_rows].
  intros r Hr. exists hour_ts. split; assumption.
Qed.

Lemma deploy_incident_rows (hourly_match : list (Z * Q)) (dep : DeployEvent) (g : G) :
  Forall (deploy_incident_ok hourly_match dep)
         (fst (deploy_incident hourly_match dep g)).
Proof.
  unfold deploy_incident. cbv zeta. unfold bind, ret.
  destruct (rand g) as [u g1].
  destruct (Qltb u (deploy_p hourly_match dep)); cbn [fst]; [| constructor].
  constructor; [| constructor]. repeat split.
Qed.

Lemma load_incidents_rows (entry : Z * Q) (g : G) :
  Forall (load_incident_ok entry) (fst (load_incidents entry g)).
Proof.
  unfold load_incidents. cbv zeta. unfold bind.
  destruct (poisson (py_max 0.0 (0.03 * snd entry)) g) as [n g1].
  apply for_range_Forall. intros g2.
  unfold one_load_incident, bind, ret.
  pose proof (randint_range 0 60 g2 eq_refl) as Hm.
  destruct (randint 0 60 g2) as [minute g3]. cbn [fst] in Hm |- *.
  constructor; [| constructor].
  unfold load_incident_ok. cbn [i_timestamp incident_type severity].
  repeat split; unfold Timedelta_minutes, NS_PER_MINUTE; lia.
Qed.

Lemma incident_rows_ok (deploys_df : list DeployEvent) (matches_df : list MatchEvent)
    (g : G) :
  Forall (incident_row_ok deploys_df (hourly_match_of matches_df))
         (fst (incident_rows deploys_df matches_df g)).
Proof.
  unfold incident_rows. cbv zeta. unfold bind, ret.
  set (hm := hourly_match_of matches_df).
  pose proof (for_each_Forall
    (fun r => exists dep, In dep deploys_df /\ deploy_incident_ok hm dep r)
    deploys_df (deploy_incident hm)) as H1.
  specialize (H1 ltac:(intros dep g0 Hin;
    eapply Forall_impl; [| apply deploy_incident_rows];
    intros r Hr; exists dep; split; assumption) g).
  destruct (for_each deploys_df (deploy_incident hm) g) as [rows1 g1].
  pose proof (for_each_Forall
    (fun r => exists entry, In entry hm /\ load_incident_ok entry r)
    hm load_incidents) as H2.
  specialize (H2 ltac:(intros entry g0 Hin;
    eapply Forall_impl; [| apply load_incidents_rows];
    intros r Hr; exists entry; split; assumption) g1).
  destruct (for_each hm load_incidents g1) as [rows2 g2].
  cbn [fst] in *. apply Forall_app. split.
  - eapply Forall_impl; [| exact H1]. intros r Hr. left. exact Hr.
  - eapply Forall_impl; [| exact H2]. intros r Hr. right. exact Hr.
Qed.
End Bodies.

(** ** From the appended rows to the returned frame *)

Section Frames.
Context {G R : Type} `{Timestamped R}.

Lemma frame_of_rows (m : Gen G (list R)) (keys : list string) (g : G)
    (df : DataFrame R) :
  fst (bind m (fun rows => ret (sorted_frame keys rows)) g) = Ok df ->
  sorted_frame keys (fst (m g)) = Ok df.
Proof.
  unfold bind, ret. destruct (m g) as [rows g1]. cbn [fst]. auto.
Qed.

Lemma frame_rows_Forall (P : R -> Prop) (m : Gen G (list R)) (keys : list string)
    (g : G) (df : DataFrame R) :
  Forall P (fst (m g)) ->
  fst (bind m (fun rows => ret (sorted_frame keys rows)) g) = Ok df ->
  forall r, In r (rows_of df) -> P r.
Proof.
  intros Hall Hok r Hin. apply frame_of_rows in Hok.
  rewrite Forall_forall in Hall. apply Hall.
  eapply sorted_frame_In; eassumption.
Qed.

Lemma frame_sorted (m : Gen G (list R)) (keys : list string) (g : G)
    (df : DataFrame R) :
  fst (bind m (fun rows => ret (sorted_frame keys rows)) g) = Ok df ->
  Sorted ts_le (rows_of df) /\ index df = seq 0 (List.length (rows_of df)).
Proof.
  intros Hok. apply frame_of_rows in Hok. apply sorted_frame_Ok in Hok. tauto.
Qed.

Lemma frame_of_no_rows (m : Gen G (list R)) (keys : list string) (g : G) :
  fst (m g) = [] ->
  fst (bind m (fun rows => ret (sorted_frame keys rows)) g) = KeyError "timestamp".
Proof.
  unfold bind, ret. destruct (m g) as [rows g1]. cbn [fst]. intros ->. reflexivity.
Qed.
End Frames.

(** ** Order on binary64 numbers *)

Lemma SFcompare_antisym (a b : spec_float) :
  SFcompare b a = option_map CompOpp (SFcompare a b).
Proof.
  destruct a as [sa | sa | | sa ma ea]; destruct b as [sb | sb | | sb mb eb];
    try destruct sa; try destruct sb; cbn; try reflexivity;
    rewrite (Z.compare_antisym ea eb); destruct (ea ?= eb)%Z; cbn; try reflexivity;
    replace (Pos.compare_cont Eq mb ma) with (CompOpp (Pos.compare_cont Eq ma mb))
      by (rewrite Pos.compare_cont_antisym; reflexivity);
    destruct (Pos.compare_cont Eq ma mb); reflexivity.
Qed.

Lemma SFcompare_not_nan (a b : spec_float) :
  a <> S754_nan -> b <> S754_nan -> exists c, SFcompare a b = Some c.
Proof.
  intros Ha Hb.
  destruct a as [sa | sa | | sa ma ea]; destruct b as [sb | sb | | sb mb eb];
    try congruence; cbn; eexists; reflexivity.
Qed.

Lemma leb_true_not_nan (x y : float) :
  (x <=? y)%float = true -> Prim2SF x <> S754_nan /\ Prim2SF y <> S754_nan.
Proof.
  rewrite leb_spec. unfold SFleb.
  destruct (Prim2SF x); destruct (Prim2SF y); cbn; try discriminate;
    intros _; split; discriminate.
Qed.

(** [x < y] excludes [y <= x]. *)
Lemma ltb_true_leb_false (x y : float) :
  (x <? y)%float = true -> (y <=? x)%float = false.
Proof.
  rewrite ltb_spec, leb_spec. unfold SFltb, SFleb.
  rewrite (SFcompare_antisym (Prim2SF x) (Prim2SF y)).
  destruct (SFcompare (Prim2SF x) (Prim2SF y)) as [[| |] |]; cbn;
    try discriminate; reflexivity.
Qed.

(** Between two numbers that are not NaN, [y <= x] fails only when [x < y]. *)
Lemma leb_false_ltb_true (x y c : float) :
  (c <=? x)%float = true -> (y <=? y)%float = true ->
  (y <=? x)%float = false -> (x <? y)%float = true.
Proof.
  intros Hx Hy. apply leb_true_not_nan in Hx. apply leb_true_not_nan in Hy.
  destruct (SFcompare_not_nan _ _ (proj1 Hy) (proj2 Hx)) as [cmp Hcmp].
  rewrite ltb_spec, leb_spec. unfold SFltb, SFleb.
  rewrite (SFcompare_antisym (Prim2SF y) (Prim2SF x)), Hcmp.
  destruct cmp; cbn; try discriminate; reflexivity.
Qed.

Lemma deploy_severity64_spec (p : float) : spec_severity64 p (deploy_severity64 p).
Proof.
  unfold spec_severity64, deploy_severity64.
  destruct (0.12 <=? p)%float eqn:E1; [| destruct (0.07 <=? p)%float eqn:E2].
  - split; [reflexivity |]. split.
    + intros [_ Hlt]. apply ltb_true_leb_false in Hlt. congruence.
    + intros [Hf _]. discriminate Hf.
  - split; [discriminate |]. split; [reflexivity |].
    intros [_ Hf]. cbn [andb] in Hf.
    rewrite (leb_false_ltb_true p 0.12 0.07 E2 eq_refl E1) in Hf. discriminate Hf.
  - split; [discriminate |]. split; [| reflexivity].
    intros [Hc _]. discriminate Hc.
Qed.

Lemma load_severity64_spec (x : float) : spec_load_severity64 x (load_severity64 x).
Proof.
  unfold spec_load_severity64, load_severity64.
  destruct (4.5 <=? x)%float eqn:E1; [| destruct (3.0 <=? x)%float eqn:E2].
  - split; [reflexivity |]. split.
    + intros [_ Hlt]. apply ltb_true_leb_false in Hlt. congruence.
    + intros [Hf _]. discriminate Hf.
  - split; [discriminate |]. split; [reflexivity |].
    intros [_ Hf]. cbn [andb] in Hf.
    rewrite (leb_false_ltb_true x 4.5 3.0 E2 eq_refl E1) in Hf. discriminate Hf.
  - split; [discriminate |]. split; [| reflexivity].
    intros [Hc _]. discriminate Hc.
Qed.

(** The code's conditional additions give the listed sum: adding no
    adjustment is adding 0. *)
Lemma incident_probability64_sum (dow hour : Z) (dep : DeployEvent) (near : float) :
  incident_probability64 dow hour dep near =
  adjusted_probability64 wed_thu dow hour (is_critical_fix dep) (deploy_size dep) near.
Proof.
  unfold incident_probability64, adjusted_probability64, raw_probability64, wed_thu.
  cbv zeta.
  destruct ((16 <=? hour) && (hour <=? 18))%Z;
  destruct (in_set dow [2; 3]%Z);
  destruct ((dow =? 4) && ((15 <=? hour) && (hour <=? 18)))%Z;
  destruct (is_critical_fix dep);
  destruct (String.eqb (deploy_size dep) "large");
  destruct (String.eqb (deploy_size dep) "medium");
  match goal with
  | |- np_clip64 (?a + ?t)%float _ _ = np_clip64 (?b + ?t)%float _ _ =>
      replace b with a by (vm_compute; reflexivity); reflexivity
  end.
Qed.

(** ** The hourly series of the binary64 generator *)

Lemma insert_hour_In (h k : Z) (hs : list Z) :
  In k (insert_hour h hs) -> k = h \/ In k hs.
Proof.
  induction hs as [| k0 hs IH]; cbn [insert_hour In].
  - intros [E | []]. left. congruence.
  - destruct (h <? k0)%Z; [| destruct (Z.eqb_spec h k0)]; cbn [In].
    + intros [E | [E | Hin]]; auto.
    + auto.
    + intros [E | Hin]; auto. destruct (IH Hin); auto.
Qed.

Lemma hours_of_In (matches_df : list MatchEvent64) (h : Z) :
  In h (hours_of matches_df) ->
  exists m, In m matches_df /\ floor_h (m64_timestamp m) = h.
Proof.
  unfold hours_of. induction matches_df as [| m ms IH]; cbn [map fold_right].
  - intros [].
  - intros Hin. apply insert_hour_In in Hin. destruct Hin as [-> | Hin].
    + exists m. split; [left; reflexivity | reflexivity].
    + destruct (IH Hin) as [m' [Hm' E]]. exists m'. split; [right; exact Hm' | exact E].
Qed.

Lemma hourly_match64_In (pd_sum : list float -> float)
    (matches_df : list MatchEvent64) (entry : Z * float) :
  In entry (hourly_match64 pd_sum matches_df) ->
  snd entry = pd_sum (hour_group matches_df (fst entry)) /\
  exists m, In m matches_df /\ floor_h (m64_timestamp m) = fst entry.
Proof.
  unfold hourly_match64. destruct matches_df as [| m0 ms]; [intros [] |].
  intros Hin. apply in_map_iff in Hin. destruct Hin as [h [<- Hh]]. cbn [fst snd].
  split; [reflexivity | apply hours_of_In, Hh].
Qed.

(** ** Rows of the binary64 generator *)

Lemma replay_randint64_range (lo hi : Z) (g : Replay64) :
  (lo < hi)%Z -> (lo <= fst (replay_randint64 lo hi g) < hi)%Z.
Proof.
  intros Hlt. unfold replay_randint64. destruct (next_int g) as [z g']. cbn [fst].
  pose proof (Z.mod_pos_bound z (hi - lo)). lia.
Qed.

#[export] Instance Replay64_source : FloatSource Replay64 := {|
  rand64 := replay_rand64;
  poisson64 := replay_poisson64;
  randint64 := replay_randint64;
  randint64_range := replay_randint64_range
|}.

Section Bodies64.
Variable pd_sum : list float -> float.
Variable pd_max : list float -> float.
Context {G : Type} `{FloatSource G}.

Lemma deploy_incident64_rows (hourly_match : list (Z * float)) (dep : DeployEvent)
    (g : G) :
  Forall (deploy_incident64_ok (deploy_p64 pd_max hourly_match dep) dep)
         (fst (deploy_incident64 pd_max hourly_match dep g)).
Proof.
  unfold deploy_incident64. cbv zeta. unfold bind, ret.
  destruct (rand64 g) as [u g1].
  destruct (u <? deploy_p64 pd_max hourly_match dep)%float; cbn [fst]; [| constructor].
  constructor; [| constructor]. repeat split.
Qed.

Lemma load_incidents64_rows (entry : Z * float) (g : G) :
  Forall (load_incident64_ok entry) (fst (load_incidents64 entry g)).
Proof.
  unfold load_incidents64. cbv zeta. unfold bind.
  destruct (poisson64 (py_max64 0.0 (0.03 * snd entry)) g) as [n g1].
  apply for_range_Forall. intros g2.
  unfold one_load_incident64, bind, ret.
  pose proof (randint64_range 0 60 g2 eq_refl) as Hm.
  destruct (randint64 0 60 g2) as [minute g3]. cbn [fst] in Hm |- *.
  constructor; [| constructor].
  unfold load_incident64_ok. cbn [i_timestamp incident_type severity].
  repeat split; unfold Timedelta_minutes, NS_PER_MINUTE; lia.
Qed.

Lemma incident_rows64_ok (deploys_df : list DeployEvent)
    (matches_df : list MatchEvent64) (g : G) :
  let hm := hourly_match64 pd_sum matches_df in
  Forall (fun r =>
            (exists dep, In dep deploys_df /\
                         deploy_incident64_ok (deploy_p64 pd_max hm dep) dep r) \/
            (exists entry, In entry hm /\ load_incident64_ok entry r))
         (fst (incident_rows64 pd_sum pd_max deploys_df matches_df g)).
Proof.
  intros hm. unfold incident_rows64. cbv zeta. fold hm. unfold bind, ret.
  pose proof (for_each_Forall
    (fun r => exists dep, In dep deploys_df /\
                          deploy_incident64_ok (deploy_p64 pd_max hm dep) dep r)
    deploys_df (deploy_incident64 pd_max hm)) as H1.
  specialize (H1 ltac:(intros dep g0 Hin;
    eapply Forall_impl; [| apply deploy_incident64_rows];
    intros r Hr; exists dep; split; assumption) g).
  destruct (for_each deploys_df (deploy_incident64 pd_max hm) g) as [rows1 g1].
  pose proof (for_each_Forall
    (fun r => exists entry, In entry hm /\ load_incident64_ok entry r)
    hm load_incidents64) as H2.
  specialize (H2 ltac:(intros entry g0 Hin;
    eapply Forall_impl; [| apply load_incidents64_rows];
    intros r Hr; exists entry; split; assumption) g1).
  destruct (for_each hm load_incidents64 g1) as [rows2 g2].
  cbn [fst] in *. apply Forall_app. split.
  - eapply Forall_impl; [| exact H1]. intros r Hr. left. exact Hr.
  - eapply Forall_impl; [| exact H2]. intros r Hr. right. exact Hr.
Qed.
End Bodies64.

(** * The claims *)

(** C1 (as the code behaves): a date range whose end is before its start
    gives no hour, so no row is appended; the frame built from the empty list
    has no [timestamp] column and [sort_values] raises [KeyError] in
    [generate_match_events] and in [generate_deploy_events], and likewise in
    [generate_incidents] on two empty tables.  No generator returns an empty
    table. *)
Theorem empty_range_raises_KeyError (G : Type) (RS : RandomSource G)
    (start_date end_date : Z) (g : G) :
  (end_date < start_date)%Z ->
  fst (generate_match_events start_date end_date g) = KeyError "timestamp" /\
  fst (generate_deploy_events start_date end_date g) = KeyError "timestamp" /\
  fst (generate_incidents [] [] g) = KeyError "timestamp".
Proof.
  intros Hlt. unfold generate_match_events, generate_deploy_events, generate_incidents,
    _hours_between.
  rewrite (date_range_h_empty _ _ Hlt).
  repeat split; apply frame_of_no_rows; reflexivity.
Qed.

Lemma empty_range_raises_KeyError_witness :
  (thursday_0h < tuesday_9h)%Z /\
  fst (generate_match_events tuesday_9h thursday_0h match_draws) = KeyError "timestamp" /\
  fst (generate_deploy_events tuesday_9h thursday_0h match_draws) = KeyError "timestamp" /\
  fst (generate_incidents [] [] match_draws) = KeyError "timestamp".
Proof.
  split; [reflexivity |].
  apply (empty_range_raises_KeyError Replay Replay_source). reflexivity.
Defined.

(** C2 (as the specification words it, refuted): on a Tuesday the code adds
    no +0.010.  For a small, non-critical deploy on Tuesday 09:00 with no
    match nearby the code computes 0.010, while the sum with the bonus on
    Tuesday and Wednesday is 0.020; so it is in binary64. *)
Lemma spec_probability_differs_on_tuesday :
  dayofweek (d_timestamp tuesday_deploy) = 1%Z /\
  hour (d_timestamp tuesday_deploy) = 9%Z /\
  deploy_p (hourly_match_of []) tuesday_deploy == 0.010 /\
  spec_probability 1 9 false "small"
    (near_match_intensity (hourly_match_of []) tuesday_9h) == 0.020 /\
  ~ deploy_p (hourly_match_of []) tuesday_deploy ==
    spec_probability (dayofweek (d_timestamp tuesday_deploy))
      (hour (d_timestamp tuesday_deploy))
      (is_critical_fix tuesday_deploy) (deploy_size tuesday_deploy)
      (near_match_intensity (hourly_match_of []) (d_timestamp tuesday_deploy)) /\
  incident_probability64 1 9 tuesday_deploy 0 = 0.01%float /\
  adjusted_probability64 tue_wed 1 9 false "small" 0 = 0.02%float.
Proof.
  repeat split; try (vm_compute; reflexivity).
  intros E. vm_compute in E. discriminate E.
Qed.

(** C2 (amended): for every deploy row the probability of
    [generate_incidents], computed in binary64, is 0.010 plus, added in this
    order, 0.040 for hours 16 to 18, 0.010 on Wednesday and Thursday (days 2
    and 3, Monday being 0), 0.025 on Friday for hours 15 to 18, 0.020 for a
    critical fix, 0.030 for a large or 0.015 for a medium deploy, and
    min(0.08, nearby intensity x 0.02), clipped to [0, 0.95]; and every
    deploy_incident row of the returned table stems from a deploy row and has
    severity high when that probability is at least 0.12, medium when it is
    at least 0.07 and below 0.12, low otherwise. *)
Theorem deploy_incident_probability_and_severity
    (pd_sum pd_max : list float -> float) (G : Type) (FS : FloatSource G)
    (deploys_df : list DeployEvent) (matches_df : list MatchEvent64) (g : G) :
  let hourly_match := hourly_match64 pd_sum matches_df in
  (forall dep,
     deploy_p64 pd_max hourly_match dep =
     adjusted_probability64 wed_thu
       (dayofweek (d_timestamp dep)) (hour (d_timestamp dep))
       (is_critical_fix dep) (deploy_size dep)
       (near_match_intensity64 pd_max hourly_match (d_timestamp dep))) /\
  (forall df,
     fst (generate_incidents64 pd_sum pd_max deploys_df matches_df g) = Ok df ->
   forall r, In r (rows_of df) -> incident_type r = "deploy_incident"%string ->
   exists dep, In dep deploys_df /\ i_timestamp r = d_timestamp dep /\
               spec_severity64 (deploy_p64 pd_max hourly_match dep) (severity r)).
Proof.
  intros hourly_match. split.
  - intros dep. unfold deploy_p64. apply incident_probability64_sum.
  - intros df Hok r Hin Hty.
    pose proof (frame_rows_Forall _ _ _ _ _
                  (incident_rows64_ok pd_sum pd_max deploys_df matches_df g)
                  Hok r Hin) as Hr.
    destruct Hr as [[dep [Hdep [Hts [_ Hsev]]]] | [entry [_ [_ [Hty' _]]]]].
    + exists dep. split; [exact Hdep |]. split; [exact Hts |].
      rewrite Hsev. apply deploy_severity64_spec.
    + rewrite Hty in Hty'. discriminate Hty'.
Qed.

(** A run on the boundary of the scale: Monday 09:00, small, not critical,
    with intensity 3.0 in the same hour.  The binary64 sum 0.010 + 0.06 is
    0.06999999999999999, below 0.07, and the row has severity low. *)
Lemma deploy_incident_probability_and_severity_witness :
  let r := mkIncident monday_9h "deploy_incident" "low" in
  let df := mkDataFrame incident_columns
    [(0%nat, r);
     (1%nat, mkIncident (monday_9h + Timedelta_minutes 15)%Z "load_incident" "medium")] in
  let hourly_match := hourly_match64 fold_sum64 [monday_match64] in
  fst (generate_incidents64 fold_sum64 fold_max64
         [monday_small_deploy] [monday_match64] incident_draws64) = Ok df /\
  In r (rows_of df) /\
  incident_type r = "deploy_incident"%string /\
  deploy_p64 fold_max64 hourly_match monday_small_deploy = 0.06999999999999999%float /\
  (0.07 <=? deploy_p64 fold_max64 hourly_match monday_small_deploy)%float = false /\
  exists dep, In dep [monday_small_deploy] /\ i_timestamp r = d_timestamp dep /\
    spec_severity64 (deploy_p64 fold_max64 hourly_match dep) (severity r).
Proof.
  intros r df hourly_match.
  assert (Hok : fst (generate_incidents64 fold_sum64 fold_max64
                       [monday_small_deploy] [monday_match64] incident_draws64) = Ok df)
    by (vm_compute; reflexivity).
  assert (Hin : In r (rows_of df)) by (left; reflexivity).
  split; [exact Hok |]. split; [exact Hin |]. split; [reflexivity |].
  split; [vm_compute; reflexivity |]. split; [vm_compute; reflexivity |].
  exact (proj2 (deploy_incident_probability_and_severity fold_sum64 fold_max64
                  Replay64 Replay64_source
                  [monday_small_deploy] [monday_match64] incident_draws64)
               df Hok r Hin eq_refl).
Defined.

(** An hour that no match row floors to has intensity 0. *)
Lemma hour_intensity_absent (matches_df : list MatchEvent) (h : Z) :
  (forall m, In m matches_df -> floor_h (m_timestamp m) <> h) ->
  hour_intensity matches_df h = 0.
Proof.
  intros Habs. unfold hour_intensity.
  induction matches_df as [| m ms IH]; cbn [filter]; [reflexivity |].
  destruct (Z.eqb_spec (floor_h (m_timestamp m)) h) as [E | _].
  - exfalso. apply (Habs m); [left; reflexivity | exact E].
  - apply IH. intros m' Hm'. apply Habs. right. exact Hm'.
Qed.

(** C3: in [generate_incidents] the nearby match intensity of a deploy row is
    the largest, over the five hours from two before to two after the hour of
    the deploy, of the summed traffic multipliers of the match rows whose
    timestamp floors to that hour; the series read with fill value 0 is that
    sum at every hour, so an hour without match row counts 0. *)
Theorem near_match_intensity_is_window_max
    (matches_df : list MatchEvent) (dep : DeployEvent) :
  let ts := d_timestamp dep in
  deploy_p (hourly_match_of matches_df) dep =
    incident_probability (dayofweek ts) (hour ts) dep
      (near_match_intensity (hourly_match_of matches_df) ts) /\
  near_match_intensity (hourly_match_of matches_df) ts
    == spec_near_intensity matches_df ts /\
  (forall h, series_get (hourly_match_of matches_df) h 0
             == hour_intensity matches_df h) /\
  (forall h, hour_intensity [] h = 0).
Proof.
  intros ts. split; [reflexivity |]. split; [apply near_match_intensity_spec |].
  split; [apply hourly_match_get | reflexivity].
Qed.

(** Case analysis on the integer comparisons of a goal, one at a time,
    dropping the impossible branches as they appear. *)
Ltac split_comparisons :=
  repeat first
    [ reflexivity
    | match goal with
      | |- context [(?a <=? ?b)%Z] => destruct (Z.leb_spec a b)
      | |- context [(?a <? ?b)%Z] => destruct (Z.ltb_spec a b)
      | |- context [(?a =? ?b)%Z] => destruct (Z.eqb_spec a b)
      end; cbn [andb orb]; try (exfalso; lia) ].

(** C4: the Poisson rate of [generate_deploy_events] at every hour of the
    grid is the table of the specification: Monday to Thursday 0.9 for hours
    9-11, 1.1 for 12-15, 1.7 for 16-17, 0.7 for 18-21 and 0.08 otherwise;
    Friday 0.55 for 10-14, 1.0 for 15-16, 0.45 for 17-19 and 0.06 otherwise;
    Saturday and Sunday 0.03.  Monday 17:00 has rate 1.7. *)
Theorem base_rate_is_spec_table (G : Type) (RS : RandomSource G)
    (hour_ts : Z) (g : G) :
  base_rate (dayofweek hour_ts) (hour hour_ts)
    = spec_rate (dayofweek hour_ts) (hour hour_ts) /\
  deploy_hour hour_ts g =
    (let (n_deploys, g') := poisson (spec_rate (dayofweek hour_ts) (hour hour_ts)) g in
     for_range n_deploys (one_deploy hour_ts) g') /\
  dayofweek monday_17h = 0%Z /\ hour monday_17h = 17%Z /\
  base_rate (dayofweek monday_17h) (hour monday_17h) = 1.7.
Proof.
  assert (E : base_rate (dayofweek hour_ts) (hour hour_ts)
              = spec_rate (dayofweek hour_ts) (hour hour_ts)).
  { pose proof (dayofweek_range hour_ts) as Hd.
    generalize dependent (dayofweek hour_ts). generalize (hour hour_ts).
    intros h d Hd. unfold base_rate, spec_rate. split_comparisons. }
  split; [exact E |]. split.
  - unfold deploy_hour, bind. rewrite E. reflexivity.
  - repeat split; vm_compute; reflexivity.
Qed.


(** C6: every table that [generate_match_events], [generate_deploy_events]
    or [generate_incidents] returns has non-decreasing timestamps from each
    row to the next, and its index is 0 .. n-1. *)
Theorem returned_tables_sorted_and_reindexed (G : Type) (RS : RandomSource G)
    (start_date end_date : Z) (deploys_df : list DeployEvent)
    (matches_df : list MatchEvent) (g : G) :
  (forall df, fst (generate_match_events start_date end_date g) = Ok df ->
     Sorted ts_le (rows_of df) /\ index df = seq 0 (List.length (rows_of df))) /\
  (forall df, fst (generate_deploy_events start_date end_date g) = Ok df ->
     Sorted ts_le (rows_of df) /\ index df = seq 0 (List.length (rows_of df))) /\
  (forall df, fst (generate_incidents deploys_df matches_df g) = Ok df ->
     Sorted ts_le (rows_of df) /\ index df = seq 0 (List.length (rows_of df))).
Proof.
  split; [| split]; intros df Hok; apply frame_sorted in Hok; exact Hok.
Qed.

Lemma returned_tables_sorted_and_reindexed_witness :
  let dfm := mkDataFrame match_columns
    [(0%nat, mkMatchEvent wednesday_20h "Brasileirao" (np_clip (1.7 + 0.20 * 0) 1.0 3.2))] in
  let dfd := mkDataFrame deploy_columns
    [(0%nat, mkDeployEvent (thursday_0h + Timedelta_minutes 59)%Z false "small")] in
  let dfi := mkDataFrame incident_columns
    [(0%nat, mkIncident (monday_17h + Timedelta_minutes 30)%Z "deploy_incident" "medium");
     (1%nat, mkIncident (wednesday_20h + Timedelta_minutes 15)%Z "load_incident" "low")] in
  (fst (generate_match_events wednesday_20h wednesday_20h match_draws) = Ok dfm /\
   Sorted ts_le (rows_of dfm) /\ index dfm = [0%nat]) /\
  (fst (generate_deploy_events thursday_0h thursday_0h deploy_draws) = Ok dfd /\
   Sorted ts_le (rows_of dfd) /\ index dfd = [0%nat]) /\
  (fst (generate_incidents [monday_deploy] [wednesday_match] incident_draws) = Ok dfi /\
   Sorted ts_le (rows_of dfi) /\ index dfi = [0%nat; 1%nat]).
Proof.
  intros dfm dfd dfi.
  pose proof (returned_tables_sorted_and_reindexed Replay Replay_source
                wednesday_20h wednesday_20h [] [] match_draws) as [Hm _].
  pose proof (returned_tables_sorted_and_reindexed Replay Replay_source
                thursday_0h thursday_0h [] [] deploy_draws) as [_ [Hd _]].
  pose proof (returned_tables_sorted_and_reindexed Replay Replay_source
                thursday_0h thursday_0h [monday_deploy] [wednesday_match] incident_draws)
    as [_ [_ Hi]].
  assert (Em : fst (generate_match_events wednesday_20h wednesday_20h match_draws) = Ok dfm)
    by (vm_compute; reflexivity).
  assert (Ed : fst (generate_deploy_events thursday_0h thursday_0h deploy_draws) = Ok dfd)
    by (vm_compute; reflexivity).
  assert (Ei : fst (generate_incidents [monday_deploy] [wednesday_match] incident_draws)
               = Ok dfi) by (vm_compute; reflexivity).
  split; [| split].
  - split; [exact Em | exact (Hm dfm Em)].
  - split; [exact Ed | exact (Hd dfd Ed)].
  - split; [exact Ei | exact (Hi dfi Ei)].
Defined.

(** C7: in every returned table the fields are in their domains: a match
    row has its traffic multiplier in [1.0, 3.2], a deploy row has size
    small, medium or large, and an incident row has severity low, medium or
    high and type deploy_incident or load_incident. *)
Theorem returned_fields_in_domain (G : Type) (RS : RandomSource G)
    (start_date end_date : Z) (deploys_df : list DeployEvent)
    (matches_df : list MatchEvent) (g : G) :
  (forall df, fst (generate_match_events start_date end_date g) = Ok df ->
     forall r, In r (rows_of df) ->
     1.0 <= traffic_multiplier r /\ traffic_multiplier r <= 3.2) /\
  (forall df, fst (generate_deploy_events start_date end_date g) = Ok df ->
     forall r, In r (rows_of df) -> In (deploy_size r) deploy_sizes) /\
  (forall df, fst (generate_incidents deploys_df matches_df g) = Ok df ->
     forall r, In r (rows_of df) ->
     In (severity r) severities /\ In (incident_type r) incident_types).
Proof.
  split; [| split]; intros df Hok r Hin.
  - pose proof (frame_rows_Forall _ _ _ _ _
                  (match_rows_ok (_hours_between start_date end_date) g) Hok r Hin)
      as [ts [_ [_ Hb]]].
    exact Hb.
  - pose proof (frame_rows_Forall _ _ _ _ _
                  (deploy_rows_ok (_hours_between start_date end_date) g) Hok r Hin)
      as [ts [_ [_ Hs]]].
    exact Hs.
  - pose proof (frame_rows_Forall _ _ _ _ _
                  (incident_rows_ok deploys_df matches_df g) Hok r Hin) as Hr.
    destruct Hr as [[dep [_ [_ [Hty Hsev]]]] | [entry [_ [_ [Hty Hsev]]]]];
      rewrite Hty, Hsev; unfold incident_types; cbn [In].
    + split; [apply deploy_severity_In | auto].
    + split; [apply load_severity_In | auto].
Qed.

Lemma returned_fields_in_domain_witness :
  let rm := mkMatchEvent wednesday_20h "Brasileirao" (np_clip (1.7 + 0.20 * 0) 1.0 3.2) in
  let rd := mkDeployEvent (thursday_0h + Timedelta_minutes 59)%Z false "small" in
  let ri := mkIncident (wednesday_20h + Timedelta_minutes 15)%Z "load_incident" "low" in
  (1.0 <= traffic_multiplier rm /\ traffic_multiplier rm <= 3.2) /\
  In (deploy_size rd) deploy_sizes /\
  (In (severity ri) severities /\ In (incident_type ri) incident_types).
Proof.
  intros rm rd ri.
  pose proof (returned_fields_in_domain Replay Replay_source
                wednesday_20h wednesday_20h [] [] match_draws) as [Hm _].
  pose proof (returned_fields_in_domain Replay Replay_source
                thursday_0h thursday_0h [] [] deploy_draws) as [_ [Hd _]].
  pose proof (returned_fields_in_domain Replay Replay_source
                thursday_0h thursday_0h [monday_deploy] [wednesday_match] incident_draws)
    as [_ [_ Hi]].
  split; [| split].
  - refine (Hm (mkDataFrame match_columns [(0%nat, rm)]) _ rm _);
      [vm_compute; reflexivity | left; reflexivity].
  - refine (Hd (mkDataFrame deploy_columns [(0%nat, rd)]) _ rd _);
      [vm_compute; reflexivity | left; reflexivity].
  - refine (Hi (mkDataFrame incident_columns
        [(0%nat, mkIncident (monday_17h + Timedelta_minutes 30)%Z
                   "deploy_incident" "medium"); (1%nat, ri)]) _ ri _);
      [vm_compute; reflexivity | right; left; reflexivity].
Defined.

(** With no match row every deploy has nearby intensity 0. *)
Lemma near_match_intensity_nil (ts : Z) :
  near_match_intensity (hourly_match_of []) ts = 0.
Proof.
  unfold near_match_intensity, reindex. rewrite near_hours_floor. reflexivity.
Qed.

(** C8: with an empty match table the hourly series is empty, every deploy
    probability of [generate_incidents] is computed with nearby match
    intensity 0, and the returned table has no load_incident row. *)
Theorem empty_matches_no_load_incident (G : Type) (RS : RandomSource G)
    (deploys_df : list DeployEvent) (g : G) :
  hourly_match_of [] = [] /\
  (forall dep,
     near_match_intensity (hourly_match_of []) (d_timestamp dep) = 0 /\
     deploy_p (hourly_match_of []) dep =
       incident_probability (dayofweek (d_timestamp dep)) (hour (d_timestamp dep)) dep 0) /\
  (forall df, fst (generate_incidents deploys_df [] g) = Ok df ->
   forall r, In r (rows_of df) ->
     incident_type r = "deploy_incident"%string /\
     incident_type r <> "load_incident"%string).
Proof.
  split; [reflexivity |]. split.
  - intros dep. split; [apply near_match_intensity_nil |].
    unfold deploy_p. rewrite near_match_intensity_nil. reflexivity.
  - intros df Hok r Hin.
    pose proof (frame_rows_Forall _ _ _ _ _
                  (incident_rows_ok deploys_df [] g) Hok r Hin) as Hr.
    destruct Hr as [[dep [_ [_ [Hty _]]]] | [entry [[] _]]].
    rewrite Hty. split; [reflexivity | discriminate].
Qed.

Lemma empty_matches_no_load_incident_witness :
  let r := mkIncident (monday_17h + Timedelta_minutes 30)%Z "deploy_incident" "medium" in
  let df := mkDataFrame incident_columns [(0%nat, r)] in
  fst (generate_incidents [monday_deploy] [] incident_draws) = Ok df /\
  In r (rows_of df) /\
  incident_type r = "deploy_incident"%string /\
  incident_type r <> "load_incident"%string.
Proof.
  intros r df.
  assert (Hok : fst (generate_incidents [monday_deploy] [] incident_draws) = Ok df)
    by (vm_compute; reflexivity).
  assert (Hin : In r (rows_of df)) by (left; reflexivity).
  split; [exact Hok |]. split; [exact Hin |].
  exact (proj2 (proj2 (empty_matches_no_load_incident Replay Replay_source
                         [monday_deploy] incident_draws)) df Hok r Hin).
Defined.

(** C9: every timestamp in the table of [generate_deploy_events] is between
    the start date and the last hour of the grid plus 59 minutes, and every
    load_incident of [generate_incidents] is within 59 minutes after the hour
    of some match row; so a row can be later than the end date, or than the
    last match hour: the sample runs give a deploy 59 minutes after the end
    date and a load incident 15 minutes after the only match hour. *)
Theorem generated_timestamps_within_hour (G : Type) (RS : RandomSource G)
    (start_date end_date : Z) (deploys_df : list DeployEvent)
    (matches_df : list MatchEvent) (g : G) :
  (forall df, fst (generate_deploy_events start_date end_date g) = Ok df ->
   forall r, In r (rows_of df) ->
     (start_date <= d_timestamp r
      <= last_grid_hour start_date end_date + Timedelta_minutes 59)%Z /\
     (d_timestamp r <= end_date + Timedelta_minutes 59)%Z) /\
  (forall df, fst (generate_incidents deploys_df matches_df g) = Ok df ->
   forall r, In r (rows_of df) -> incident_type r = "load_incident"%string ->
   exists m, In m matches_df /\
     (floor_h (m_timestamp m) <= i_timestamp r
      <= floor_h (m_timestamp m) + Timedelta_minutes 59)%Z) /\
  (exists df r,
     fst (generate_deploy_events (G := Replay) thursday_0h thursday_0h deploy_draws) = Ok df /\
     In r (rows_of df) /\
     d_timestamp r = (thursday_0h + Timedelta_minutes 59)%Z) /\
  (exists df r,
     fst (generate_incidents (G := Replay) [monday_deploy] [wednesday_match] incident_draws)
       = Ok df /\
     In r (rows_of df) /\ incident_type r = "load_incident"%string /\
     i_timestamp r = (m_timestamp wednesday_match + Timedelta_minutes 15)%Z).
Proof.
  split; [| split; [| split]].
  - intros df Hok r Hin.
    pose proof (frame_rows_Forall _ _ _ _ _
                  (deploy_rows_ok (_hours_between start_date end_date) g) Hok r Hin)
      as [hour_ts [Hh [Hb _]]].
    apply date_range_h_bounds in Hh. lia.
  - intros df Hok r Hin Hty.
    pose proof (frame_rows_Forall _ _ _ _ _
                  (incident_rows_ok deploys_df matches_df g) Hok r Hin) as Hr.
    destruct Hr as [[dep [_ [_ [Hty' _]]]] | [entry [Hentry [Hb _]]]].
    + rewrite Hty in Hty'. discriminate Hty'.
    + assert (Hk : In (fst entry) (map fst (hourly_match_of matches_df)))
        by (apply in_map, Hentry).
      apply hourly_match_keys in Hk. destruct Hk as [m [Hm Ek]].
      exists m. split; [exact Hm |]. rewrite <- Ek. exact Hb.
  - exists (mkDataFrame deploy_columns
        [(0%nat, mkDeployEvent (thursday_0h + Timedelta_minutes 59)%Z false "small")]).
    eexists. split; [vm_compute; reflexivity |].
    split; [left; reflexivity | reflexivity].
  - exists (mkDataFrame incident_columns
        [(0%nat, mkIncident (monday_17h + Timedelta_minutes 30)%Z
                   "deploy_incident" "medium");
         (1%nat, mkIncident (wednesday_20h + Timedelta_minutes 15)%Z
                   "load_incident" "low")]).
    eexists. split; [vm_compute; reflexivity |].
    split; [right; left; reflexivity | split; reflexivity].
Qed.

Lemma generated_timestamps_within_hour_witness :
  let rd := mkDeployEvent (thursday_0h + Timedelta_minutes 59)%Z false "small" in
  let ri := mkIncident (wednesday_20h + Timedelta_minutes 15)%Z "load_incident" "low" in
  ((thursday_0h <= d_timestamp rd
    <= last_grid_hour thursday_0h thursday_0h + Timedelta_minutes 59)%Z /\
   (d_timestamp rd <= thursday_0h + Timedelta_minutes 59)%Z) /\
  (exists m, In m [wednesday_match] /\
     (floor_h (m_timestamp m) <= i_timestamp ri
      <= floor_h (m_timestamp m) + Timedelta_minutes 59)%Z).
Proof.
  intros rd ri.
  pose proof (generated_timestamps_within_hour Replay Replay_source
                thursday_0h thursday_0h [monday_deploy] [wednesday_match] deploy_draws)
    as [Hd _].
  pose proof (generated_timestamps_within_hour Replay Replay_source
                thursday_0h thursday_0h [monday_deploy] [wednesday_match] incident_draws)
    as [_ [Hi _]].
  split.
  - refine (Hd (mkDataFrame deploy_columns [(0%nat, rd)]) _ rd _);
      [vm_compute; reflexivity | left; reflexivity].
  - refine (Hi (mkDataFrame incident_columns
        [(0%nat, mkIncident (monday_17h + Timedelta_minutes 30)%Z
                   "deploy_incident" "medium"); (1%nat, ri)]) _ ri _ _);
      [vm_compute; reflexivity | right; left; reflexivity | reflexivity].
Defined.





(** * Further properties of the code *)

(** ** The hourly grid *)

Lemma grid_increasing (s : Z) (a n : nat) :
  StronglySorted Z.lt
    (map (fun k => (s + Timedelta_hours (Z.of_nat k))%Z) (seq a n)).
Proof.
  revert a. induction n as [| n IH]; intros a; cbn [seq map].
  - constructor.
  - constructor; [apply IH |].
    apply Forall_forall. intros t Ht. apply in_map_iff in Ht.
    destruct Ht as [k [<- Hk]]. apply in_seq in Hk.
    unfold Timedelta_hours. pose proof NS_PER_HOUR_pos. nia.
Qed.

(** X1: [_hours_between] gives exactly the instants [start + k hours],
    [k >= 0], that are not after [end], in strictly increasing order; their
    number is [(end - start) div 1h + 1] when that is positive, and a range
    with [start = end] has the single hour [start]. *)
Theorem hours_between_grid (start_date end_date : Z) :
  (forall t, In t (_hours_between start_date end_date) <->
     exists k, (0 <= k)%Z /\ t = (start_date + Timedelta_hours k)%Z /\ (t <= end_date)%Z) /\
  StronglySorted Z.lt (_hours_between start_date end_date) /\
  List.length (_hours_between start_date end_date)
    = Z.to_nat ((end_date - start_date) / NS_PER_HOUR + 1) /\
  _hours_between start_date start_date = [start_date].
Proof.
  pose proof NS_PER_HOUR_pos as Hp.
  split; [| split; [| split]].
  - intros t. unfold _hours_between. rewrite date_range_h_In. split.
    + intros [k [Hk ->]]. exists k. split; [lia |]. split; [reflexivity |].
      pose proof (Z.mul_div_le (end_date - start_date) NS_PER_HOUR Hp).
      unfold Timedelta_hours. nia.
    + intros [k [Hk [-> Hle]]]. exists k. split; [| reflexivity].
      split; [exact Hk |].
      apply Z.div_le_lower_bound; [exact Hp |].
      unfold Timedelta_hours in Hle. lia.
  - apply grid_increasing.
  - unfold _hours_between, date_range_h. rewrite length_map, length_seq. reflexivity.
  - unfold _hours_between, date_range_h.
    rewrite Z.sub_diag. change (Z.to_nat (0 / NS_PER_HOUR + 1)) with 1%nat.
    cbn [seq map]. f_equal. unfold Timedelta_hours. lia.
Qed.

(** ** What a generator hands back *)

Lemma frame_result {G R : Type} `{Timestamped R}
    (m : Gen G (list R)) (keys : list string) (g : G) :
  In "timestamp"%string keys ->
  (fst (m g) = [] /\
   fst (bind m (fun rows => ret (sorted_frame keys rows)) g) = KeyError "timestamp") \/
  (fst (m g) <> [] /\
   exists df, fst (bind m (fun rows => ret (sorted_frame keys rows)) g) = Ok df /\
              columns df = keys /\ Permutation (fst (m g)) (rows_of df)).
Proof.
  intros Hkeys. unfold bind, ret. destruct (m g) as [rows g1]. cbn [fst].
  destruct rows as [| r rows].
  - left. split; reflexivity.
  - right. split; [discriminate |].
    destruct (sorted_frame_nonempty keys (r :: rows) ltac:(discriminate) Hkeys)
      as [df Hdf].
    exists df. split; [exact Hdf |].
    split; [| apply (sorted_frame_Ok _ _ _ Hdf)].
    unfold sorted_frame, sort_values_timestamp in Hdf.
    destruct (existsb (String.eqb "timestamp")
                (columns (DataFrame_of_rows keys (r :: rows)))); [| discriminate].
    injection Hdf as <-. reflexivity.
Qed.

(** X2: each generator either raises [KeyError('timestamp')], which happens
    exactly when its loops appended no row, or returns a table that has the
    three documented columns and holds the appended rows, each once (so a
    returned table is never empty). *)
Theorem generators_raise_or_return_rows (G : Type) (RS : RandomSource G)
    (start_date end_date : Z) (deploys_df : list DeployEvent)
    (matches_df : list MatchEvent) (g : G) :
  let hours := _hours_between start_date end_date in
  ((fst (match_rows hours g) = [] /\
    fst (generate_match_events start_date end_date g) = KeyError "timestamp") \/
   (fst (match_rows hours g) <> [] /\
    exists df, fst (generate_match_events start_date end_date g) = Ok df /\
      columns df = ["timestamp"; "tournament"; "traffic_multiplier"]%string /\
      Permutation (fst (match_rows hours g)) (rows_of df))) /\
  ((fst (deploy_rows hours g) = [] /\
    fst (generate_deploy_events start_date end_date g) = KeyError "timestamp") \/
   (fst (deploy_rows hours g) <> [] /\
    exists df, fst (generate_deploy_events start_date end_date g) = Ok df /\
      columns df = ["timestamp"; "is_critical_fix"; "deploy_size"]%string /\
      Permutation (fst (deploy_rows hours g)) (rows_of df))) /\
  ((fst (incident_rows deploys_df matches_df g) = [] /\
    fst (generate_incidents deploys_df matches_df g) = KeyError "timestamp") \/
   (fst (incident_rows deploys_df matches_df g) <> [] /\
    exists df, fst (generate_incidents deploys_df matches_df g) = Ok df /\
      columns df = ["timestamp"; "incident_type"; "severity"]%string /\
      Permutation (fst (incident_rows deploys_df matches_df g)) (rows_of df))).
Proof.
  intros hours. split; [| split].
  - apply (frame_result (match_rows hours) match_columns g). left. reflexivity.
  - apply (frame_result (deploy_rows hours) deploy_columns g). left. reflexivity.
  - apply (frame_result (incident_rows deploys_df matches_df) incident_columns g).
    left. reflexivity.
Qed.

(** ** Match events and the tournament windows *)

Section MatchWindows.
Context {G : Type} `{RandomSource G}.

Lemma match_window_closed (ts : Z) (cfg : Window) (g : G) :
  window_open ts cfg = false -> match_window ts cfg g = ([], g).
Proof.
  unfold window_open, match_window. cbv zeta. intros ->. reflexivity.
Qed.

Lemma match_window_of_window (ts : Z) (cfg : Window) (g : G) :
  Forall (match_row_of_window ts cfg) (fst (match_window ts cfg g)).
Proof.
  unfold match_window, match_row_of_window, window_open. cbv zeta.
  destruct (in_set (dayofweek ts) (w_days cfg) && in_range (hour ts) (w_hours cfg));
    [| constructor].
  unfold bind, ret. destruct (rand g) as [u g1].
  destruct (Qltb u (w_prob cfg)); [| constructor].
  destruct (normal (w_base cfg) 0.20 g1) as [x g2]. cbn [fst].
  constructor; [| constructor]. repeat split.
Qed.

Lemma match_window_length (ts : Z) (cfg : Window) (g : G) :
  (List.length (fst (match_window ts cfg g))
   <= if window_open ts cfg then 1 else 0)%nat.
Proof.
  unfold match_window, window_open. cbv zeta.
  destruct (in_set (dayofweek ts) (w_days cfg) && in_range (hour ts) (w_hours cfg));
    [| apply Nat.le_refl].
  unfold bind, ret. destruct (rand g) as [u g1].
  destruct (Qltb u (w_prob cfg)); [| cbn; lia].
  destruct (normal (w_base cfg) 0.20 g1) as [x g2]. cbn. lia.
Qed.

Lemma for_each_silent {A R : Type} (l : list A) (body : A -> Gen G (list R)) (g : G) :
  (forall a g', In a l -> body a g' = ([], g')) ->
  for_each l body g = ([], g).
Proof.
  induction l as [| a l IH]; intros Hbody; cbn [for_each]; [reflexivity |].
  unfold bind, ret. rewrite (Hbody a g (or_introl eq_refl)).
  rewrite IH by (intros; apply Hbody; right; assumption). reflexivity.
Qed.

Lemma match_rows_of_window (hours : list Z) (g : G) :
  Forall (fun r => exists ts cfg, In ts hours /\ In cfg windows /\
                                  match_row_of_window ts cfg r)
         (fst (match_rows hours g)).
Proof.
  unfold match_rows. apply for_each_Forall. intros ts g0 Hts.
  apply for_each_Forall. intros cfg g1 Hcfg.
  eapply Forall_impl; [| apply match_window_of_window].
  intros r Hr. exists ts, cfg. auto.
Qed.
End MatchWindows.

Lemma window_open_days_hours (ts : Z) (cfg : Window) :
  In cfg windows -> window_open ts cfg = true ->
  In (dayofweek ts) [2; 3; 5; 6]%Z /\ (15 <= hour ts <= 21)%Z /\
  In (dayofweek ts) (w_days cfg) /\
  (fst (w_hours cfg) <= hour ts < snd (w_hours cfg))%Z.
Proof.
  intros Hcfg Hopen. unfold window_open in Hopen.
  apply andb_true_iff in Hopen. destruct Hopen as [Hd Hh].
  assert (Hday : In (dayofweek ts) (w_days cfg)).
  { unfold in_set in Hd. apply existsb_exists in Hd.
    destruct Hd as [d [Hin Hd]]. apply Z.eqb_eq in Hd. subst d. exact Hin. }
  assert (Hhour : (fst (w_hours cfg) <= hour ts < snd (w_hours cfg))%Z).
  { unfold in_range in Hh. apply andb_true_iff in Hh. destruct Hh as [H1 H2].
    apply Z.leb_le in H1. apply Z.ltb_lt in H2. lia. }
  unfold windows in Hcfg. cbn [In] in Hcfg.
  destruct Hcfg as [<- | [<- | [<- | [<- | [<- | []]]]]];
    cbn [w_days w_hours fst snd In] in *; repeat split; try lia; tauto.
Qed.

(** X3: every row of a table returned by [generate_match_events] sits on an
    hour of the grid, hence between the start and the end date, and was drawn
    for one of the five windows, whose name it carries and whose days and
    hours contain it; so match rows only occur on Wednesday, Thursday,
    Saturday or Sunday, at hours 15 to 21. *)
Theorem match_rows_lie_in_windows (G : Type) (RS : RandomSource G)
    (start_date end_date : Z) (g : G) (df : DataFrame MatchEvent) :
  fst (generate_match_events start_date end_date g) = Ok df ->
  forall r, In r (rows_of df) ->
    In (m_timestamp r) (_hours_between start_date end_date) /\
    (start_date <= m_timestamp r <= end_date)%Z /\
    (exists cfg, In cfg windows /\ tournament r = w_name cfg /\
       In (dayofweek (m_timestamp r)) (w_days cfg) /\
       (fst (w_hours cfg) <= hour (m_timestamp r) < snd (w_hours cfg))%Z) /\
    In (tournament r) tournaments /\
    In (dayofweek (m_timestamp r)) [2; 3; 5; 6]%Z /\
    (15 <= hour (m_timestamp r) <= 21)%Z.
Proof.
  intros Hok r Hin.
  pose proof (frame_rows_Forall _ _ _ _ _
                (match_rows_of_window (_hours_between start_date end_date) g) Hok r Hin)
    as [ts [cfg [Hts [Hcfg [Ets [Ename Hopen]]]]]].
  subst ts.
  destruct (window_open_days_hours _ _ Hcfg Hopen) as [Hd [Hh [Hdc Hhc]]].
  split; [exact Hts |]. split.
  - apply date_range_h_bounds in Hts. lia.
  - split; [exists cfg; auto |]. split; [| split; assumption].
    rewrite Ename. unfold tournaments. apply in_map. exact Hcfg.
Qed.

Lemma match_rows_lie_in_windows_witness :
  let r := mkMatchEvent wednesday_20h "Brasileirao" (np_clip (1.7 + 0.20 * 0) 1.0 3.2) in
  In (m_timestamp r) (_hours_between wednesday_20h wednesday_20h) /\
  (wednesday_20h <= m_timestamp r <= wednesday_20h)%Z /\
  (exists cfg, In cfg windows /\ tournament r = w_name cfg /\
     In (dayofweek (m_timestamp r)) (w_days cfg) /\
     (fst (w_hours cfg) <= hour (m_timestamp r) < snd (w_hours cfg))%Z) /\
  In (tournament r) tournaments /\
  In (dayofweek (m_timestamp r)) [2; 3; 5; 6]%Z /\
  (15 <= hour (m_timestamp r) <= 21)%Z.
Proof.
  intros r.
  refine (match_rows_lie_in_windows Replay Replay_source wednesday_20h wednesday_20h
            match_draws (mkDataFrame match_columns [(0%nat, r)]) _ r _);
    [vm_compute; reflexivity | left; reflexivity].
Defined.

(** X4: when no hour of the grid falls in a tournament window (its day is not
    Wednesday, Thursday, Saturday or Sunday, or its hour is outside 15-21),
    [generate_match_events] makes no draw at all and raises
    [KeyError('timestamp')]. *)
Theorem match_events_outside_windows_raise (G : Type) (RS : RandomSource G)
    (start_date end_date : Z) (g : G) :
  (forall ts, In ts (_hours_between start_date end_date) ->
     ~ In (dayofweek ts) [2; 3; 5; 6]%Z \/ ~ (15 <= hour ts <= 21)%Z) ->
  generate_match_events start_date end_date g = (KeyError "timestamp", g).
Proof.
  intros Hout. unfold generate_match_events, bind, ret, match_rows.
  rewrite for_each_silent; [reflexivity |].
  intros ts g' Hts. apply for_each_silent. intros cfg g'' Hcfg.
  apply match_window_closed.
  destruct (window_open ts cfg) eqn:E; [| reflexivity].
  exfalso. destruct (window_open_days_hours _ _ Hcfg E) as [Hd [Hh _]].
  destruct (Hout ts Hts); tauto.
Qed.

Lemma match_events_outside_windows_raise_witness :
  (forall ts, In ts (_hours_between monday_0h monday_17h) ->
     ~ In (dayofweek ts) [2; 3; 5; 6]%Z \/ ~ (15 <= hour ts <= 21)%Z) /\
  generate_match_events monday_0h monday_17h match_draws
    = (KeyError "timestamp", match_draws).
Proof.
  assert (Hout : forall ts, In ts (_hours_between monday_0h monday_17h) ->
     ~ In (dayofweek ts) [2; 3; 5; 6]%Z \/ ~ (15 <= hour ts <= 21)%Z).
  { intros ts Hts. left.
    assert (Hall : forallb (fun t => (dayofweek t =? 0)%Z)
                     (_hours_between monday_0h monday_17h) = true)
      by (vm_compute; reflexivity).
    rewrite forallb_forall in Hall. specialize (Hall ts Hts).
    apply Z.eqb_eq in Hall. rewrite Hall. cbn [In]. lia. }
  split; [exact Hout |].
  exact (match_events_outside_windows_raise Replay Replay_source
           monday_0h monday_17h match_draws Hout).
Defined.

(** ** How many rows a loop can append *)

Lemma for_each_length {G A R : Type} (w : A -> nat) (l : list A)
    (body : A -> Gen G (list R)) :
  (forall a g, In a l -> (List.length (fst (body a g)) <= w a)%nat) ->
  forall g, (List.length (fst (for_each l body g)) <= list_sum (map w l))%nat.
Proof.
  induction l as [| a l IH]; intros Hbody g; cbn [for_each map list_sum fold_right].
  - apply Nat.le_refl.
  - unfold bind, ret.
    pose proof (Hbody a g (or_introl eq_refl)) as Ha.
    destruct (body a g) as [rows g1].
    assert (Hl : (List.length (fst (for_each l body g1)) <= list_sum (map w l))%nat)
      by (apply IH; intros; apply Hbody; right; assumption).
    destruct (for_each l body g1) as [rest g2].
    cbn [fst] in *. rewrite length_app. unfold list_sum in Hl. lia.
Qed.

Lemma list_sum_const {A : Type} (c : nat) (l : list A) :
  list_sum (map (fun _ => c) l) = (c * List.length l)%nat.
Proof.
  induction l as [| a l IH]; cbn [map list_sum fold_right List.length]; [lia |].
  unfold list_sum in IH. rewrite IH. lia.
Qed.

Lemma open_windows_at_most_three (ts : Z) :
  (list_sum (map (fun cfg => if window_open ts cfg then 1 else 0) windows) <= 3)%nat.
Proof.
  unfold windows, window_open, in_set, in_range.
  cbn [map list_sum fold_right existsb w_days w_hours fst snd].
  generalize (dayofweek ts) (hour ts). intros d h.
  destruct (Z.eqb_spec d 2); destruct (Z.eqb_spec d 3);
  destruct (Z.eqb_spec d 5); destruct (Z.eqb_spec d 6);
    try (exfalso; lia); cbn [orb andb];
  destruct (19 <=? h)%Z; destruct (15 <=? h)%Z; destruct (16 <=? h)%Z;
  destruct (h <? 22)%Z; destruct (h <? 21)%Z; cbn; lia.
Qed.

Lemma Permutation_filter_length {A : Type} (f : A -> bool) (l l' : list A) :
  Permutation l l' -> List.length (filter f l) = List.length (filter f l').
Proof.
  induction 1 as [| x l l' _ IH | x y l | l l' l'' _ IH1 _ IH2]; cbn [filter].
  - reflexivity.
  - destruct (f x); cbn [List.length]; congruence.
  - destruct (f x); destruct (f y); reflexivity.
  - congruence.
Qed.

(** ** Deploy events *)

Section DeploySizes.
Context {G : Type} `{RandomSource G}.

Lemma one_deploy_critical (hour_ts : Z) (g : G) :
  Forall critical_size_ok (fst (one_deploy hour_ts g)).
Proof.
  unfold one_deploy. cbv zeta. unfold bind, ret.
  destruct (randint 0 60 g) as [minute g1].
  destruct (rand g1) as [u g2].
  destruct (Qltb u (base_crit (dayofweek hour_ts) (hour hour_ts))).
  - pose proof (choice_In ["small"; "medium"]%string [0.70; 0.30] g2
                  ltac:(discriminate)) as Hc.
    destruct (choice ["small"; "medium"]%string [0.70; 0.30] g2) as [size g3].
    cbn [fst] in Hc |- *. constructor; [| constructor].
    intros _. exact Hc.
  - destruct (choice ["small"; "medium"; "large"]%string [0.45; 0.40; 0.15] g2)
      as [size g3].
    cbn [fst]. constructor; [| constructor].
    unfold critical_size_ok. cbn [is_critical_fix]. discriminate.
Qed.

Lemma deploy_rows_critical (hours : list Z) (g : G) :
  Forall critical_size_ok (fst (deploy_rows hours g)).
Proof.
  unfold deploy_rows. apply for_each_Forall. intros hour_ts g0 _.
  unfold deploy_hour, bind.
  destruct (poisson (base_rate (dayofweek hour_ts) (hour hour_ts)) g0) as [n g1].
  apply for_range_Forall. intros g2. apply one_deploy_critical.
Qed.
End DeploySizes.

(** X6: in a table returned by [generate_deploy_events] a critical fix is
    never large: its size is small or medium. *)
Theorem critical_fix_is_never_large (G : Type) (RS : RandomSource G)
    (start_date end_date : Z) (g : G) (df : DataFrame DeployEvent) :
  fst (generate_deploy_events start_date end_date g) = Ok df ->
  forall r, In r (rows_of df) -> is_critical_fix r = true ->
    In (deploy_size r) ["small"; "medium"]%string /\
    deploy_size r <> "large"%string.
Proof.
  intros Hok r Hin Hcrit.
  pose proof (frame_rows_Forall _ _ _ _ _
                (deploy_rows_critical (_hours_between start_date end_date) g) Hok r Hin)
    as Hsize.
  specialize (Hsize Hcrit). split; [exact Hsize |].
  cbn [In] in Hsize. destruct Hsize as [<- | [<- | []]]; discriminate.
Qed.

Lemma critical_fix_is_never_large_witness :
  let r := mkDeployEvent (friday_16h + Timedelta_minutes 5)%Z true "medium" in
  let df := mkDataFrame deploy_columns [(0%nat, r)] in
  fst (generate_deploy_events friday_16h friday_16h critical_draws) = Ok df /\
  In r (rows_of df) /\ is_critical_fix r = true /\
  In (deploy_size r) ["small"; "medium"]%string /\
  deploy_size r <> "large"%string.
Proof.
  intros r df.
  assert (Hok : fst (generate_deploy_events friday_16h friday_16h critical_draws) = Ok df)
    by (vm_compute; reflexivity).
  assert (Hin : In r (rows_of df)) by (left; reflexivity).
  split; [exact Hok |]. split; [exact Hin |]. split; [reflexivity |].
  exact (critical_fix_is_never_large Replay Replay_source friday_16h friday_16h
           critical_draws df Hok r Hin eq_refl).
Defined.

(** ** Incidents: how many, and which *)

Section IncidentCounts.
Context {G : Type} `{RandomSource G}.

Lemma deploy_incident_length (hourly_match : list (Z * Q)) (dep : DeployEvent) (g : G) :
  (List.length (fst (deploy_incident hourly_match dep g)) <= 1)%nat.
Proof.
  unfold deploy_incident. cbv zeta. unfold bind, ret.
  destruct (rand g) as [u g1].
  destruct (Qltb u (deploy_p hourly_match dep)); cbn; lia.
Qed.

Lemma incident_rows_split (deploys_df : list DeployEvent) (matches_df : list MatchEvent)
    (g : G) :
  exists rows1 rows2,
    fst (incident_rows deploys_df matches_df g) = rows1 ++ rows2 /\
    (List.length rows1 <= List.length deploys_df)%nat /\
    Forall (fun r => incident_type r = "deploy_incident"%string) rows1 /\
    Forall (fun r => incident_type r = "load_incident"%string) rows2.
Proof.
  unfold incident_rows. cbv zeta. unfold bind, ret.
  set (hm := hourly_match_of matches_df).
  pose proof (for_each_length (fun _ => 1%nat) deploys_df (deploy_incident hm)
                ltac:(intros; apply deploy_incident_length) g) as Hlen.
  pose proof (for_each_Forall (fun r => incident_type r = "deploy_incident"%string)
                deploys_df (deploy_incident hm)
                ltac:(intros dep g0 _; eapply Forall_impl;
                      [| apply deploy_incident_rows]; intros r Hr; apply Hr) g) as H1.
  destruct (for_each deploys_df (deploy_incident hm) g) as [rows1 g1].
  pose proof (for_each_Forall (fun r => incident_type r = "load_incident"%string)
                hm load_incidents
                ltac:(intros entry g0 _; eapply Forall_impl;
                      [| apply load_incidents_rows]; intros r Hr; apply Hr) g1) as H2.
  destruct (for_each hm load_incidents g1) as [rows2 g2].
  cbn [fst] in *. exists rows1, rows2.
  rewrite list_sum_const in Hlen. repeat split; try assumption. lia.
Qed.
End IncidentCounts.

Lemma filter_none {A : Type} (f : A -> bool) (l : list A) :
  Forall (fun a => f a = false) l -> filter f l = [].
Proof.
  induction 1 as [| a l Ha _ IH]; cbn [filter]; [reflexivity |].
  rewrite Ha. exact IH.
Qed.

(** X7: a deploy row gives at most one incident, so the table returned by
    [generate_incidents] has no more deploy_incident rows than the deploy
    table has rows (none when the deploy table is empty). *)
Theorem deploy_incidents_at_most_one_per_deploy (G : Type) (RS : RandomSource G)
    (deploys_df : list DeployEvent) (matches_df : list MatchEvent) (g : G)
    (df : DataFrame Incident) :
  fst (generate_incidents deploys_df matches_df g) = Ok df ->
  (List.length (filter is_deploy_incident (rows_of df)) <= List.length deploys_df)%nat.
Proof.
  intros Hok. apply frame_of_rows in Hok. apply sorted_frame_Ok in Hok.
  destruct Hok as [_ [Hperm _]].
  rewrite <- (Permutation_filter_length _ _ _ Hperm).
  destruct (incident_rows_split deploys_df matches_df g)
    as [rows1 [rows2 [-> [Hlen [_ H2]]]]].
  rewrite filter_app, length_app.
  rewrite (filter_none is_deploy_incident rows2).
  - pose proof (filter_length_le is_deploy_incident rows1). cbn [List.length]. lia.
  - eapply Forall_impl; [| exact H2]. intros r Hr.
    unfold is_deploy_incident. rewrite Hr. reflexivity.
Qed.

Lemma deploy_incidents_at_most_one_per_deploy_witness :
  let df := mkDataFrame incident_columns
    [(0%nat, mkIncident (monday_17h + Timedelta_minutes 30)%Z "deploy_incident" "medium");
     (1%nat, mkIncident (wednesday_20h + Timedelta_minutes 15)%Z "load_incident" "low")] in
  fst (generate_incidents [monday_deploy] [wednesday_match] incident_draws) = Ok df /\
  (List.length (filter is_deploy_incident (rows_of df)) <= List.length [monday_deploy])%nat.
Proof.
  intros df.
  assert (Hok : fst (generate_incidents [monday_deploy] [wednesday_match] incident_draws)
                = Ok df) by (vm_compute; reflexivity).
  split; [exact Hok |].
  exact (deploy_incidents_at_most_one_per_deploy Replay Replay_source
           [monday_deploy] [wednesday_match] incident_draws df Hok).
Defined.

(** ** The hourly series as a grouping *)

Lemma group_add_key_in (h : Z) (x : Q) (s : list (Z * Q)) :
  In h (map fst (group_add h x s)).
Proof.
  induction s as [| [k v] s IH]; cbn [group_add map fst In]; [auto |].
  destruct (h <? k)%Z; [cbn; auto |].
  destruct (Z.eqb_spec h k); cbn [map fst In]; auto.
Qed.

Lemma group_add_keys_kept (h k : Z) (x : Q) (s : list (Z * Q)) :
  In k (map fst s) -> In k (map fst (group_add h x s)).
Proof.
  induction s as [| [k0 v0] s IH]; cbn [group_add map fst In]; [tauto |].
  intros Hin. destruct (h <? k0)%Z; [cbn [map fst In]; tauto |].
  destruct (Z.eqb_spec h k0); cbn [map fst In]; tauto.
Qed.

Lemma group_add_total (h : Z) (x : Q) (s : list (Z * Q)) :
  series_total (group_add h x s) == series_total s + x.
Proof.
  unfold series_total.
  induction s as [| [k v] s IH]; cbn [group_add map snd fold_right]; [ring |].
  destruct (h <? k)%Z; [cbn [map snd fold_right]; ring |].
  destruct (h =? k)%Z; cbn [map snd fold_right]; [ring |].
  rewrite IH. ring.
Qed.

Lemma hourly_fold_keys_kept (ms : list MatchEvent) (s : list (Z * Q)) (k : Z) :
  In k (map fst s) \/ (exists m, In m ms /\ k = floor_h (m_timestamp m)) ->
  In k (map fst
    (fold_left (fun s m => group_add (floor_h (m_timestamp m)) (traffic_multiplier m) s)
               ms s)).
Proof.
  revert s. induction ms as [| m ms IH]; intros s; cbn [fold_left].
  - intros [Hin | [m [[] _]]]. exact Hin.
  - intros [Hin | [m' [[<- | Hm'] Ek]]]; apply IH.
    + left. apply group_add_keys_kept, Hin.
    + left. subst k. apply group_add_key_in.
    + right. exists m'. auto.
Qed.

Lemma hourly_fold_total (ms : list MatchEvent) (s : list (Z * Q)) :
  series_total
    (fold_left (fun s m => group_add (floor_h (m_timestamp m)) (traffic_multiplier m) s)
               ms s)
  == series_total s + total_traffic ms.
Proof.
  revert s. induction ms as [| m ms IH]; intros s; cbn [fold_left].
  - unfold total_traffic. cbn. ring.
  - rewrite IH, group_add_total. unfold total_traffic. cbn [map fold_right]. ring.
Qed.

Lemma hourly_match_increasing (matches_df : list MatchEvent) :
  keys_increasing (hourly_match_of matches_df).
Proof.
  unfold hourly_match_of. destruct matches_df as [| m ms]; [constructor |].
  apply hourly_fold_increasing. constructor.
Qed.

Lemma series_get_In (s : list (Z * Q)) (h : Z) (x fill : Q) :
  keys_increasing s -> In (h, x) s -> series_get s h fill = x.
Proof.
  unfold keys_increasing.
  induction s as [| [k v] s IH]; cbn [series_get map fst In]; intros Hs Hin; [tauto |].
  inversion Hs as [| ? ? Hs' Hall]; subst.
  destruct Hin as [E | Hin].
  - injection E as -> ->. rewrite Z.eqb_refl. reflexivity.
  - destruct (Z.eqb_spec h k) as [-> | _]; [| apply IH; assumption].
    exfalso. rewrite Forall_forall in Hall.
    specialize (Hall k (in_map fst _ _ Hin)). lia.
Qed.

(** X8: the hourly series of [generate_incidents] is a grouping of the match
    table: its hours strictly increase (so each occurs once), they are exactly
    the floored timestamps of the match rows, the value kept for an hour is
    the summed multiplier of the rows of that hour, and the values add up to
    the sum of all multipliers. *)
Theorem hourly_match_is_grouping (matches_df : list MatchEvent) :
  let hourly_match := hourly_match_of matches_df in
  keys_increasing hourly_match /\
  (forall h, In h (map fst hourly_match) <->
             exists m, In m matches_df /\ h = floor_h (m_timestamp m)) /\
  (forall h x, In (h, x) hourly_match -> x == hour_intensity matches_df h) /\
  series_total hourly_match == total_traffic matches_df.
Proof.
  intros hourly_match. split; [apply hourly_match_increasing |].
  split; [| split].
  - intros h. split; [apply hourly_match_keys |].
    intros [m [Hm Eh]]. unfold hourly_match, hourly_match_of.
    destruct matches_df as [| m0 ms]; [destruct Hm |].
    apply hourly_fold_keys_kept. right. exists m. auto.
  - intros h x Hin.
    rewrite <- (series_get_In hourly_match h x 0 (hourly_match_increasing _) Hin).
    apply hourly_match_get.
  - unfold hourly_match, hourly_match_of. destruct matches_df as [| m ms].
    + reflexivity.
    + rewrite hourly_fold_total. unfold series_total. cbn [map fold_right]. ring.
Qed.

Lemma hourly_match_is_grouping_witness :
  In (wednesday_20h, 2.0) (hourly_match_of [wednesday_match]) /\
  2.0 == hour_intensity [wednesday_match] wednesday_20h.
Proof.
  assert (Hin : In (wednesday_20h, 2.0) (hourly_match_of [wednesday_match]))
    by (left; reflexivity).
  split; [exact Hin |].
  exact (proj1 (proj2 (proj2 (hourly_match_is_grouping [wednesday_match])))
               wednesday_20h 2.0 Hin).
Defined.

(** ** Load incidents *)

Lemma floor_h_within (h t : Z) :
  floor_h h = h -> (h <= t < h + NS_PER_HOUR)%Z -> floor_h t = h.
Proof.
  unfold floor_h. intros Eh Ht. pose proof NS_PER_HOUR_pos as Hp.
  assert (Eq : (t / NS_PER_HOUR = h / NS_PER_HOUR)%Z).
  { symmetry. apply (Z.div_unique t NS_PER_HOUR (h / NS_PER_HOUR) (t - h)); lia. }
  rewrite Eq. exact Eh.
Qed.

Lemma floor_h_idempotent (t : Z) : floor_h (floor_h t) = floor_h t.
Proof.
  pose proof (floor_h_shift t 0) as E. unfold Timedelta_hours in E.
  rewrite Z.mul_0_l, Z.add_0_r in E. exact E.
Qed.

(** X9: a load_incident row of the table returned by [generate_incidents]
    lies in an hour that has match rows, and its severity is decided by the
    value pandas sums, in binary64, over the multipliers of the match rows of
    that very hour: high when that sum is at least 4.5, medium when it is at
    least 3.0 and below 4.5, low otherwise. *)
Theorem load_incident_severity_by_hour
    (pd_sum pd_max : list float -> float) (G : Type) (FS : FloatSource G)
    (deploys_df : list DeployEvent) (matches_df : list MatchEvent64) (g : G)
    (df : DataFrame Incident) :
  fst (generate_incidents64 pd_sum pd_max deploys_df matches_df g) = Ok df ->
  forall r, In r (rows_of df) -> incident_type r = "load_incident"%string ->
    let h := floor_h (i_timestamp r) in
    let intensity := pd_sum (hour_group matches_df h) in
    (exists m, In m matches_df /\ floor_h (m64_timestamp m) = h) /\
    severity r = load_severity64 intensity /\
    spec_load_severity64 intensity (severity r).
Proof.
  intros Hok r Hin Hty h intensity.
  pose proof (frame_rows_Forall _ _ _ _ _
                (incident_rows64_ok pd_sum pd_max deploys_df matches_df g)
                Hok r Hin) as Hr.
  destruct Hr as [[dep [_ [_ [Hty' _]]]] | [entry [Hentry [Hb [_ Hsev]]]]].
  { rewrite Hty in Hty'. discriminate Hty'. }
  destruct (hourly_match64_In pd_sum matches_df entry Hentry) as [Eval [m [Hm Eh]]].
  assert (Efloor : h = fst entry).
  { unfold h. apply floor_h_within.
    - rewrite <- Eh. apply floor_h_idempotent.
    - unfold Timedelta_minutes, NS_PER_HOUR, NS_PER_MINUTE in *. lia. }
  assert (Esev : severity r = load_severity64 intensity).
  { rewrite Hsev, Eval. unfold intensity. rewrite Efloor. reflexivity. }
  split; [exists m; split; [exact Hm | congruence] |].
  split; [exact Esev |].
  rewrite Esev. apply load_severity64_spec.
Qed.

Lemma load_incident_severity_by_hour_witness :
  let r := mkIncident (monday_9h + Timedelta_minutes 15)%Z "load_incident" "medium" in
  let df := mkDataFrame incident_columns
    [(0%nat, mkIncident monday_9h "deploy_incident" "low"); (1%nat, r)] in
  let intensity := fold_sum64 (hour_group [monday_match64] (floor_h (i_timestamp r))) in
  fst (generate_incidents64 fold_sum64 fold_max64
         [monday_small_deploy] [monday_match64] incident_draws64) = Ok df /\
  In r (rows_of df) /\ incident_type r = "load_incident"%string /\
  intensity = 3%float /\
  severity r = load_severity64 intensity /\
  spec_load_severity64 intensity (severity r).
Proof.
  intros r df intensity.
  assert (Hok : fst (generate_incidents64 fold_sum64 fold_max64
                       [monday_small_deploy] [monday_match64] incident_draws64) = Ok df)
    by (vm_compute; reflexivity).
  assert (Hin : In r (rows_of df)) by (right; left; reflexivity).
  split; [exact Hok |]. split; [exact Hin |]. split; [reflexivity |].
  split; [vm_compute; reflexivity |].
  exact (proj2 (load_incident_severity_by_hour fold_sum64 fold_max64
                  Replay64 Replay64_source
                  [monday_small_deploy] [monday_match64] incident_draws64
                  df Hok r Hin eq_refl)).
Defined.

(** Rounding decides at the threshold: multipliers 0.3, 2.3 and 0.4, summed
    one after the other, give 2.9999999999999996 and severity low. *)
Lemma load_severity64_below_threshold :
  fold_sum64 [0.3; 2.3; 0.4]%float = 2.9999999999999996%float /\
  load_severity64 (fold_sum64 [0.3; 2.3; 0.4]%float) = "low"%string.
Proof. split; vm_compute; reflexivity. Qed.

(** ** The nearby match intensity *)

Lemma hour_intensity_filter (P : MatchEvent -> bool) (matches_df : list MatchEvent)
    (h : Z) :
  (forall m, floor_h (m_timestamp m) = h -> P m = true) ->
  hour_intensity (filter P matches_df) h = hour_intensity matches_df h.
Proof.
  intros HP. unfold hour_intensity. f_equal. f_equal.
  induction matches_df as [| m ms IH]; cbn [filter]; [reflexivity |].
  destruct (Z.eqb_spec (floor_h (m_timestamp m)) h) as [E | N].
  - rewrite (HP m E). cbn [filter]. rewrite (proj2 (Z.eqb_eq _ _) E). f_equal. exact IH.
  - destruct (P m); [| exact IH].
    cbn [filter]. rewrite (proj2 (Z.eqb_neq _ _) N). exact IH.
Qed.

(** X10: the nearby match intensity of a deploy depends only on the match
    rows whose hour is at most two hours away from the hour of the deploy:
    dropping every other match row does not change it. *)
Theorem near_match_intensity_is_local (matches_df : list MatchEvent) (ts : Z) :
  near_match_intensity (hourly_match_of matches_df) ts ==
  near_match_intensity (hourly_match_of (filter (in_near_window ts) matches_df)) ts.
Proof.
  rewrite !near_match_intensity_spec. unfold spec_near_intensity. cbv zeta.
  assert (E : forall k, (-2 <= k <= 2)%Z ->
    hour_intensity (filter (in_near_window ts) matches_df)
      (floor_h ts + Timedelta_hours k)%Z
    = hour_intensity matches_df (floor_h ts + Timedelta_hours k)%Z).
  { intros k Hk. apply hour_intensity_filter. intros m Em.
    unfold in_near_window. rewrite Em.
    apply andb_true_iff. split; [apply Z.leb_le | apply Z.leb_le];
      unfold Timedelta_hours; pose proof NS_PER_HOUR_pos; nia. }
  rewrite !E by lia. reflexivity.
Qed.

Lemma clamp_monotone (lo hi x y : Q) : x <= y -> clamp lo hi x <= clamp lo hi y.
Proof.
  intros Hxy. unfold clamp.
  apply Q.max_le_compat_l. apply Q.min_le_compat_r. exact Hxy.
Qed.

(** X11: the incident probability never decreases when the nearby match
    intensity grows, and it no longer depends on it from intensity 4 on, where
    the traffic term has reached its cap of 0.08. *)
Theorem incident_probability_monotone_and_capped (dow hour : Z) (dep : DeployEvent)
    (near1 near2 : Q) :
  near1 <= near2 ->
  incident_probability dow hour dep near1 <= incident_probability dow hour dep near2 /\
  (4 <= near1 ->
   incident_probability dow hour dep near1 == incident_probability dow hour dep near2 /\
   py_min 0.08 (near1 * 0.02) == 0.08).
Proof.
  intros Hle. rewrite !incident_probability_sum.
  unfold wed_thu_probability, adjusted_probability.
  set (base := 0.010
     + (if ((16 <=? hour) && (hour <=? 18))%Z then 0.040 else 0)
     + (if in_set dow wed_thu then 0.010 else 0)
     + (if ((dow =? 4) && ((15 <=? hour) && (hour <=? 18)))%Z then 0.025 else 0)
     + (if is_critical_fix dep then 0.020 else 0)
     + (if String.eqb (deploy_size dep) "large" then 0.030
        else if String.eqb (deploy_size dep) "medium" then 0.015 else 0)).
  split.
  - apply clamp_monotone.
    assert (Hmin : Qmin 0.08 (near1 * 0.02) <= Qmin 0.08 (near2 * 0.02))
      by (apply Q.min_le_compat_l; lra).
    lra.
  - intros H4.
    assert (E1 : Qmin 0.08 (near1 * 0.02) == 0.08) by (apply Q.min_l; lra).
    assert (E2 : Qmin 0.08 (near2 * 0.02) == 0.08) by (apply Q.min_l; lra).
    split.
    + apply clamp_compat. rewrite E1, E2. reflexivity.
    + rewrite py_min_Qmin. exact E1.
Qed.

Lemma incident_probability_monotone_and_capped_witness :
  4 <= 5 /\
  incident_probability 0 17 monday_deploy 4 <= incident_probability 0 17 monday_deploy 5 /\
  incident_probability 0 17 monday_deploy 4 == incident_probability 0 17 monday_deploy 5 /\
  py_min 0.08 (4 * 0.02) == 0.08.
Proof.
  assert (H45 : 4 <= 5) by (vm_compute; discriminate).
  assert (H44 : 4 <= 4) by (vm_compute; discriminate).
  split; [exact H45 |].
  destruct (incident_probability_monotone_and_capped 0 17 monday_deploy 4 5 H45)
    as [Hmono Hcap].
  split; [exact Hmono |]. exact (Hcap H44).
Defined.

(** ** The parameters handed to the distributions *)


Lemma py_max_Qmax (a b : Q) : py_max a b == Qmax a b.
Proof.
  unfold py_max. destruct (Qltb a b) eqn:E.
  - apply Qltb_lt in E. symmetry. apply Q.max_r. apply Qlt_le_weak, E.
  - apply Qltb_ge in E. symmetry. apply Q.max_l. exact E.
Qed.


(** ** Incidents from generated match tables *)

Lemma positive_sum_ge (lo : Q) (xs : list Q) :
  0 <= lo -> xs <> [] -> Forall (fun x => lo <= x) xs ->
  lo <= fold_right Qplus 0 xs.
Proof.
  intros Hlo Hne Hall. induction Hall as [| x xs Hx Hxs IH]; [congruence |].
  cbn [fold_right]. destruct xs as [| y ys].
  - cbn. lra.
  - assert (lo <= fold_right Qplus 0 (y :: ys)) by (apply IH; discriminate). lra.
Qed.

Lemma hour_intensity_ge (lo : Q) (matches_df : list MatchEvent) (h : Z) :
  0 <= lo ->
  (forall m, In m matches_df -> lo <= traffic_multiplier m) ->
  (exists m, In m matches_df /\ floor_h (m_timestamp m) = h) ->
  lo <= hour_intensity matches_df h.
Proof.
  intros Hlo Hall [m [Hm Eh]]. unfold hour_intensity.
  apply positive_sum_ge; [exact Hlo | |].
  - intros E. apply map_eq_nil in E.
    assert (Hin : In m (filter (fun m0 => (floor_h (m_timestamp m0) =? h)%Z) matches_df))
      by (apply filter_In; split; [exact Hm | apply Z.eqb_eq, Eh]).
    rewrite E in Hin. destruct Hin.
  - apply Forall_forall. intros x Hx. apply in_map_iff in Hx.
    destruct Hx as [m' [<- Hm']]. apply filter_In in Hm'. apply Hall, Hm'.
Qed.

(** X13: fed with a match table returned by [generate_match_events],
    [generate_incidents] computes for every deploy a probability between
    0.010 and 0.205 that clipping leaves untouched, and every hour of its
    hourly series has intensity at least 1.0, so its load-incident rate is
    0.03 times the intensity and at least 0.03. *)
Theorem generated_matches_feed_incidents (G : Type) (RS : RandomSource G)
    (start_date end_date : Z) (g : G) (matches : DataFrame MatchEvent) :
  fst (generate_match_events start_date end_date g) = Ok matches ->
  let hourly_match := hourly_match_of (rows_of matches) in
  (forall dep,
     deploy_p hourly_match dep ==
       raw_probability (dayofweek (d_timestamp dep)) (hour (d_timestamp dep)) dep
         (near_match_intensity hourly_match (d_timestamp dep)) /\
     0.010 <= deploy_p hourly_match dep /\ deploy_p hourly_match dep <= 0.205) /\
  Forall (fun entry =>
            1.0 <= snd entry /\
            py_max 0.0 (0.03 * snd entry) == 0.03 * snd entry /\
            0.03 <= py_max 0.0 (0.03 * snd entry)) hourly_match.
Proof.
  intros Hok hourly_match.
  assert (Hmult : forall m, In m (rows_of matches) ->
                            1.0 <= traffic_multiplier m /\ traffic_multiplier m <= 3.2).
  { intros m Hm.
    pose proof (frame_rows_Forall _ _ _ _ _
                  (match_rows_ok (_hours_between start_date end_date) g) Hok m Hm)
      as [ts [_ [_ Hb]]].
    exact Hb. }
  split.
  - intros dep.
    assert (Hnear : 0 <= near_match_intensity hourly_match (d_timestamp dep)).
    { apply near_match_intensity_nonneg. intros m Hm.
      destruct (Hmult m Hm). lra. }
    destruct (raw_probability_bounds (dayofweek (d_timestamp dep))
                (hour (d_timestamp dep)) dep _ Hnear) as [Hlo Hhi].
    assert (E : deploy_p hourly_match dep ==
       raw_probability (dayofweek (d_timestamp dep)) (hour (d_timestamp dep)) dep
         (near_match_intensity hourly_match (d_timestamp dep))).
    { unfold deploy_p, incident_probability. apply np_clip_inside; lra. }
    split; [exact E |]. rewrite E. split; assumption.
  - apply Forall_forall. intros [h x] Hentry. cbn [snd].
    assert (Hx : 1.0 <= x).
    { assert (Ex : x == hour_intensity (rows_of matches) h).
      { rewrite <- (series_get_In _ h x 0 (hourly_match_increasing _) Hentry).
        apply hourly_match_get. }
      rewrite Ex. apply hour_intensity_ge; [lra | apply Hmult |].
      destruct (hourly_match_keys _ h (in_map fst _ _ Hentry)) as [m [Hm Eh]].
      exists m. split; [exact Hm | symmetry; exact Eh]. }
    assert (E : py_max 0.0 (0.03 * x) == 0.03 * x).
    { rewrite py_max_Qmax. apply Q.max_r. lra. }
    split; [exact Hx |]. split; [exact E |]. rewrite E. lra.
Qed.

Lemma generated_matches_feed_incidents_witness :
  let matches := mkDataFrame match_columns
    [(0%nat, mkMatchEvent wednesday_20h "Brasileirao" (np_clip (1.7 + 0.20 * 0) 1.0 3.2))] in
  let hourly_match := hourly_match_of (rows_of matches) in
  fst (generate_match_events wednesday_20h wednesday_20h match_draws) = Ok matches /\
  (0.010 <= deploy_p hourly_match monday_deploy /\
   deploy_p hourly_match monday_deploy <= 0.205) /\
  Forall (fun entry =>
            1.0 <= snd entry /\
            py_max 0.0 (0.03 * snd entry) == 0.03 * snd entry /\
            0.03 <= py_max 0.0 (0.03 * snd entry)) hourly_match.
Proof.
  intros matches hourly_match.
  assert (Hok : fst (generate_match_events wednesday_20h wednesday_20h match_draws)
                = Ok matches) by (vm_compute; reflexivity).
  destruct (generated_matches_feed_incidents Replay Replay_source
              wednesday_20h wednesday_20h match_draws matches Hok) as [Hp Hrate].
  split; [exact Hok |]. split; [exact (proj2 (Hp monday_deploy)) | exact Hrate].
Defined.

(** ** Match rows per hour *)

Lemma for_each_filter_length {G A R : Type} (f : R -> bool) (w : A -> nat) (l : list A)
    (body : A -> Gen G (list R)) :
  (forall a g, In a l -> (List.length (filter f (fst (body a g))) <= w a)%nat) ->
  forall g, (List.length (filter f (fst (for_each l body g))) <= list_sum (map w l))%nat.
Proof.
  induction l as [| a l IH]; intros Hbody g; cbn [for_each map list_sum fold_right].
  - apply Nat.le_refl.
  - unfold bind, ret.
    pose proof (Hbody a g (or_introl eq_refl)) as Ha.
    destruct (body a g) as [rows g1].
    assert (Hl : (List.length (filter f (fst (for_each l body g1)))
                  <= list_sum (map w l))%nat)
      by (apply IH; intros; apply Hbody; right; assumption).
    destruct (for_each l body g1) as [rest g2].
    cbn [fst] in *. rewrite filter_app, length_app. unfold list_sum in Hl. lia.
Qed.

Lemma list_sum_one_hit (t : Z) (c : nat) (l : list Z) :
  StronglySorted Z.lt l ->
  (list_sum (map (fun t' => if (t' =? t)%Z then c else 0%nat) l) <= c)%nat.
Proof.
  induction 1 as [| a l Hs IH Hall]; cbn [map list_sum fold_right]; [lia |].
  unfold list_sum in IH.
  destruct (Z.eqb_spec a t) as [-> | _]; [| lia].
  assert (E : fold_right Nat.add 0%nat
                (map (fun t' => if (t' =? t)%Z then c else 0%nat) l) = 0%nat).
  { clear IH Hs. induction l as [| b l IHl]; cbn [map fold_right]; [reflexivity |].
    inversion Hall as [| ? ? Hb Hl]; subst.
    destruct (Z.eqb_spec b t); [lia |]. apply IHl, Hl. }
  rewrite E. lia.
Qed.

Lemma floor_h_grid_injective (s k1 k2 : Z) :
  floor_h (s + Timedelta_hours k1) = floor_h (s + Timedelta_hours k2) -> k1 = k2.
Proof.
  unfold floor_h, Timedelta_hours. pose proof NS_PER_HOUR_pos as Hp.
  rewrite !Z.div_add by lia. nia.
Qed.

Section MatchesPerHour.
Context {G : Type} `{RandomSource G}.

Lemma match_rows_per_timestamp (hours : list Z) (t : Z) (g : G) :
  StronglySorted Z.lt hours ->
  (List.length (filter (fun r => (m_timestamp r =? t)%Z) (fst (match_rows hours g)))
   <= 3)%nat.
Proof.
  intros Hsorted. etransitivity; [| apply (list_sum_one_hit t 3 hours Hsorted)].
  unfold match_rows. apply for_each_filter_length. intros ts g0 _.
  destruct (Z.eqb_spec ts t) as [-> | Hne].
  - etransitivity; [apply filter_length_le |].
    etransitivity; [| apply (open_windows_at_most_three t)].
    apply for_each_length. intros cfg g1 _. apply match_window_length.
  - rewrite filter_none; [apply Nat.le_refl |].
    eapply Forall_impl; [| apply (for_each_Forall (match_row_ok ts))].
    + intros r [Ets _]. cbv beta. rewrite Ets. apply Z.eqb_neq, Hne.
    + intros cfg g1 _. apply match_window_rows.
Qed.
End MatchesPerHour.

Lemma filter_length_list_sum {A : Type} (f : A -> bool) (l : list A) :
  List.length (filter f l) = list_sum (map (fun a => if f a then 1 else 0)%nat l).
Proof.
  induction l as [| a l IH]; cbn [filter map list_sum fold_right]; [reflexivity |].
  unfold list_sum in IH. destruct (f a); cbn [List.length]; rewrite IH; reflexivity.
Qed.

(** X5: at any instant at most three of the five windows are open, so a table
    returned by [generate_match_events] has at most three rows with the same
    timestamp and at most three rows that floor to the same hour (hence at
    most three times as many rows as the grid has hours). *)
Theorem match_events_at_most_three_per_hour (G : Type) (RS : RandomSource G)
    (start_date end_date : Z) (g : G) (df : DataFrame MatchEvent) :
  fst (generate_match_events start_date end_date g) = Ok df ->
  (forall ts, (List.length (filter (window_open ts) windows) <= 3)%nat) /\
  (forall t, (List.length (filter (fun r => (m_timestamp r =? t)%Z) (rows_of df))
              <= 3)%nat) /\
  (forall h, (List.length (filter (fun r => (floor_h (m_timestamp r) =? h)%Z)
                                  (rows_of df)) <= 3)%nat) /\
  (List.length (rows_of df)
   <= 3 * List.length (_hours_between start_date end_date))%nat.
Proof.
  intros Hok.
  pose proof (frame_of_rows _ _ _ _ Hok) as Hframe.
  apply sorted_frame_Ok in Hframe. destruct Hframe as [_ [Hperm _]].
  assert (Hstamp : forall t,
    (List.length (filter (fun r => (m_timestamp r =? t)%Z) (rows_of df)) <= 3)%nat).
  { intros t. rewrite <- (Permutation_filter_length _ _ _ Hperm).
    apply match_rows_per_timestamp. apply grid_increasing. }
  split; [| split; [exact Hstamp | split]].
  - intros ts. rewrite filter_length_list_sum. apply open_windows_at_most_three.
  - intros h.
    set (in_hour := fun m : MatchEvent => (floor_h (m_timestamp m) =? h)%Z).
    destruct (filter in_hour (rows_of df)) as [| m0 rest] eqn:Ef; [cbn; lia |].
    rewrite <- Ef.
    assert (Hm0 : In m0 (rows_of df) /\ in_hour m0 = true)
      by (apply filter_In; rewrite Ef; left; reflexivity).
    destruct Hm0 as [Hm0 Eh0]. unfold in_hour in Eh0. apply Z.eqb_eq in Eh0.
    assert (Hgrid : forall m, In m (rows_of df) ->
              In (m_timestamp m) (_hours_between start_date end_date)).
    { intros m Hm.
      pose proof (frame_rows_Forall _ _ _ _ _
                    (match_rows_ok (_hours_between start_date end_date) g) Hok m Hm)
        as [ts [Hts [Ets _]]].
      subst ts. exact Hts. }
    rewrite (filter_ext_in in_hour (fun m => (m_timestamp m =? m_timestamp m0)%Z));
      [apply Hstamp |].
    intros m Hm. unfold in_hour.
    pose proof (Hgrid m Hm) as Hg. pose proof (Hgrid m0 Hm0) as Hg0.
    apply date_range_h_In in Hg. apply date_range_h_In in Hg0.
    destruct Hg as [k [_ Ek]]. destruct Hg0 as [k0 [_ Ek0]].
    destruct (Z.eqb_spec (floor_h (m_timestamp m)) h) as [E | N];
    destruct (Z.eqb_spec (m_timestamp m) (m_timestamp m0)) as [E' | N'];
      try reflexivity; exfalso.
    + apply N'. rewrite Ek, Ek0. f_equal. f_equal.
      apply (floor_h_grid_injective start_date). rewrite <- Ek, <- Ek0. congruence.
    + apply N. rewrite E'. exact Eh0.
  - rewrite <- (Permutation_length Hperm). unfold match_rows.
    etransitivity.
    + apply (for_each_length (fun _ => 3%nat)). intros ts g0 _.
      etransitivity; [| apply (open_windows_at_most_three ts)].
      apply for_each_length. intros cfg g1 _. apply match_window_length.
    + rewrite list_sum_const. apply Nat.le_refl.
Qed.

Lemma match_events_at_most_three_per_hour_witness :
  let df := mkDataFrame match_columns
    [(0%nat, mkMatchEvent wednesday_20h "Brasileirao" (np_clip (1.7 + 0.20 * 0) 1.0 3.2))] in
  fst (generate_match_events wednesday_20h wednesday_20h match_draws) = Ok df /\
  (List.length (filter (window_open wednesday_20h) windows) <= 3)%nat /\
  (List.length (filter (fun r => (m_timestamp r =? wednesday_20h)%Z) (rows_of df))
   <= 3)%nat /\
  (List.length (filter (fun r => (floor_h (m_timestamp r) =? wednesday_20h)%Z)
                       (rows_of df)) <= 3)%nat /\
  (List.length (rows_of df)
   <= 3 * List.length (_hours_between wednesday_20h wednesday_20h))%nat.
Proof.
  intros df.
  assert (Hok : fst (generate_match_events wednesday_20h wednesday_20h match_draws) = Ok df)
    by (vm_compute; reflexivity).
  destruct (match_events_at_most_three_per_hour Replay Replay_source
              wednesday_20h wednesday_20h match_draws df Hok) as [Hw [Ht [Hh Hn]]].
  split; [exact Hok |]. split; [exact (Hw wednesday_20h) |].
  split; [exact (Ht wednesday_20h) |]. split; [exact (Hh wednesday_20h) | exact Hn].
Defined.
